(** * Method access controller: policy matching and grant/deny resolution

    A shallow embedding of [src/main/MethodAccessController.js] and of
    [src/main/default-security-policy.js], followed by the properties the
    specification states about them.

    Conventions of the embedding.
    - A JavaScript string is kept as the bytes of its UTF-8 encoding
      ([string]).
    - A [RegExp] matcher of a policy entry is the pure predicate computed by
      its [test] method (no [g] or [y] flag, so [test] keeps no state).
    - A strategy function is a pure total function to [bool]: the truthiness
      of the value the JavaScript function returns.
    - A call completes either normally ([Return]) or abruptly ([Throw]). *)

From Stdlib Require Import Ascii String.
From stdpp Require Import base strings list gmap.

Set Default Proof Using "Type".

(** ** Completions: normal return or thrown error *)

Inductive error : Type :=
| E_STRATEGY_NOT_A_FUNCTION
| MODULE_NOT_FOUND (id : string).

Inductive completion (A : Type) : Type :=
| Return (a : A)
| Throw (e : error).

Arguments Return {A} a.
Arguments Throw {A} e.

Definition bind {A B : Type} (m : completion A) (k : A -> completion B)
  : completion B :=
  match m with
  | Return a => k a
  | Throw e => Throw e
  end.

Notation "'do' x <- m ;; k" := (bind m (fun x => k))
  (at level 10, x name, m at level 99, k at level 200).

(** [Array.prototype.map] with a callback that may throw: the elements are
    visited from left to right and the first abrupt completion ends the
    whole call. *)
Section ArrayOps.
Context {A B : Type} (f : A -> completion B).

Fixpoint array_map (l : list A) : completion (list B) :=
  match l with
  | [] => Return []
  | x :: rest =>
      match f x with
      | Throw e => Throw e
      | Return y =>
          match array_map rest with
          | Throw e => Throw e
          | Return ys => Return (y :: ys)
          end
      end
  end.
End ArrayOps.

(** [Array.prototype.includes] on an array of booleans. *)
Definition includes (l : list bool) (x : bool) : bool :=
  existsb (Bool.eqb x) l.

(** ** The regular expression of the default policy

    [/^.*$/] carries no flag: [^] and [$] anchor at the two ends of the
    input and [.] matches every character except the ECMAScript line
    terminators LF, CR, U+2028 and U+2029.  So [test] answers [true] exactly
    on the strings that hold no line terminator. *)

Definition LF : string := String "010"%char EmptyString.
Definition CR : string := String "013"%char EmptyString.
Definition LS : string :=
  String "226"%char (String "128"%char
    (String "168"%char EmptyString)).
Definition PS : string :=
  String "226"%char (String "128"%char
    (String "169"%char EmptyString)).

Definition line_terminator_at (s : string) : bool :=
  String.prefix LF s || String.prefix CR s
  || String.prefix LS s || String.prefix PS s.

Fixpoint has_line_terminator (s : string) : bool :=
  match s with
  | EmptyString => false
  | String _ rest => line_terminator_at s || has_line_terminator rest
  end.

(** [/^.*$/.test(s)] *)
Definition re_dot_star (s : string) : bool := negb (has_line_terminator s).

(** ** Data model *)

(** The [role] of a request: a role name, or an array whose elements are
    handed back to [permits] and [denies]. *)
#[warnings="-register-all"]
Inductive Role : Type :=
| RoleName (name : string)
| RoleArray (elements : list Role).

Section Controller.
Context {Data : Type}.

(** The object handed to a strategy function: [{ role, clazz, method, data }]. *)
Record StrategyArg : Type := mkArg {
  arg_role : string;
  arg_clazz : string;
  arg_method : string;
  arg_data : Data
}.

(** What a [strategy] slot, or the export of a required module, can hold,
    by the cases [typeof] tells apart in [_interrogate]. *)
Inductive value : Type :=
| VBoolean (b : bool)
| VFunction (f : StrategyArg -> bool)
| VString (s : string)
| VOther.

Record SecurityPolicyEntry : Type := mkEntry {
  roles : string -> bool;
  classes : string -> bool;
  methods : string -> bool;
  strategy : value
}.

Definition SecurityPolicy : Type := list SecurityPolicyEntry.

(** [default-security-policy.js] *)
Definition DEFAULT_SECURITY_POLICY : SecurityPolicy :=
  [ {| roles := re_dot_star;
       classes := re_dot_star;
       methods := re_dot_star;
       strategy := VBoolean true |} ].

Record MethodAccessController : Type := mkController {
  _policy : SecurityPolicy
}.

(** [constructor (policy)]: [policy || DEFAULT_SECURITY_POLICY]; every
    array, the empty one too, is truthy. *)
Definition new_MethodAccessController (policy : option SecurityPolicy)
  : MethodAccessController :=
  match policy with
  | Some p => {| _policy := p |}
  | None => {| _policy := DEFAULT_SECURITY_POLICY |}
  end.

(** Node's module table, as [require] sees it: a module id that is not
    bound makes [require] throw. *)
Context (modules : gmap string value).

Definition require (id : string) : completion value :=
  match modules !! id with
  | Some v => Return v
  | None => Throw (MODULE_NOT_FOUND id)
  end.

(** ** Operations *)

Definition _findEntries (this : MethodAccessController)
    (role clazz method : string) : list SecurityPolicyEntry :=
  List.filter
    (fun it => roles it role && classes it clazz && methods it method)
    (_policy this).

Fixpoint _interrogate (entries : list SecurityPolicyEntry)
    (role clazz method : string) (data : Data) (permit : bool)
  : completion bool :=
  match entries with
  | [] => Return false
  | it :: rest =>
      match strategy it with
      | VBoolean b =>
          if Bool.eqb b permit then Return true
          else _interrogate rest role clazz method data permit
      | s =>
          do strategy <-
            match s with
            | VString id => require id
            | _ => Return s
            end ;;
          match strategy with
          | VFunction f =>
              let permitted := f (mkArg role clazz method data) in
              if permit && permitted then Return true
              else if negb permit && negb permitted then Return false
              else _interrogate rest role clazz method data permit
          | _ => Throw E_STRATEGY_NOT_A_FUNCTION
          end
      end
  end.

Definition _permits (entries : list SecurityPolicyEntry)
    (role clazz method : string) (data : Data) : completion bool :=
  _interrogate entries role clazz method data true.

Definition _denies (entries : list SecurityPolicyEntry)
    (role clazz method : string) (data : Data) : completion bool :=
  _interrogate entries role clazz method data false.

Fixpoint denies (this : MethodAccessController) (role : Role)
    (clazz method : string) (data : Data) : completion bool :=
  match role with
  | RoleArray elements =>
      do results <- array_map (fun it => denies this it clazz method data)
                   elements ;;
      Return (includes results true)
  | RoleName role =>
      _denies (_findEntries this role clazz method) role clazz method data
  end.

Fixpoint permits (this : MethodAccessController) (role : Role)
    (clazz method : string) (data : Data) : completion bool :=
  match role with
  | RoleArray elements =>
      do denied <- array_map (fun it => denies this it clazz method data)
                  elements ;;
      if negb (includes denied true) then
        do permitted <- array_map (fun it => permits this it clazz method data)
                       elements ;;
        Return (includes permitted true)
      else Return false
  | RoleName role =>
      let entries := _findEntries this role clazz method in
      do denied <- _denies entries role clazz method data ;;
      if negb denied then _permits entries role clazz method data
      else Return false
  end.

(** [grants] is the deprecated name of [permits]. *)
Definition grants := permits.

(** ** Vocabulary of the specification

    The words the specification uses about one entry of the matched
    sequence, for a request [arg] and a mode [permit]. *)

Definition is_boolean (v : value) : bool :=
  match v with VBoolean _ => true | _ => false end.

Definition is_function (v : value) : bool :=
  match v with VFunction _ => true | _ => false end.

(** The value a strategy slot stands for once a string reference has been
    looked up; [None] when the reference is bound to no module. *)
Definition after_resolution (s : value) : option value :=
  match s with
  | VString id => modules !! id
  | _ => Some s
  end.

(** The function an entry ends up calling, if any. *)
Definition callable (s : value) : option (StrategyArg -> bool) :=
  match after_resolution s with
  | Some (VFunction f) => Some f
  | _ => None
  end.

(** The entry is looked at and the loop goes on to the next one: a
    literal opposite to the mode, or a function whose answer is not
    decisive in the mode. *)
Definition skipped (permit : bool) (arg : StrategyArg)
    (it : SecurityPolicyEntry) : bool :=
  match strategy it with
  | VBoolean b => negb (Bool.eqb b permit)
  | s =>
      match callable s with
      | Some f => if permit then negb (f arg) else f arg
      | None => false
      end
  end.

(** The entries from which [_interrogate] throws
    [E_STRATEGY_NOT_A_FUNCTION]: not a boolean literal and, after a
    string reference has been looked up, not a function. *)
Definition not_a_function (it : SecurityPolicyEntry) : bool :=
  negb (is_boolean (strategy it)) &&
  match after_resolution (strategy it) with
  | Some v => negb (is_function v)
  | None => false
  end.

(** The same condition in the words of the specification: after a string
    reference has been looked up, neither a boolean nor a function. *)
Definition neither_boolean_nor_callable (it : SecurityPolicyEntry) : bool :=
  match after_resolution (strategy it) with
  | Some v => negb (is_boolean v) && negb (is_function v)
  | None => false
  end.

(** In a scan for denial, the entries that are a literal [false] or a
    function answering [false]. *)
Definition false_literal_or_false_function (arg : StrategyArg)
    (it : SecurityPolicyEntry) : bool :=
  match strategy it with
  | VBoolean b => negb b
  | VFunction f => negb (f arg)
  | _ => false
  end.

Definition boolean_or_function (it : SecurityPolicyEntry) : bool :=
  is_boolean (strategy it) || is_function (strategy it).

(** The call returned a decision. *)
Definition returns {A : Type} (c : completion A) : Prop :=
  exists a, c = Return a.

(** The composition the specification gives for one role:
    [!denies && permits], the right operand evaluated only when the left
    one is truthy. *)
Definition not_denied_and_permitted (denied permitted : completion bool)
  : completion bool :=
  match denied with
  | Throw e => Throw e
  | Return true => Return false
  | Return false => permitted
  end.

End Controller.

Arguments value : clear implicits.
Arguments StrategyArg : clear implicits.
Arguments SecurityPolicyEntry : clear implicits.
Arguments SecurityPolicy : clear implicits.
Arguments MethodAccessController : clear implicits.

(** * Example policies

    The policies of the unit tests ([MethodAccessController.spec.js]), and
    two more with a strategy that is no function.  The [data] of a request is
    [{ dayOfMonth }] or left out.  A regular expression [/^name$/] over a
    plain name is the comparison with that name. *)

Module Examples.

Definition Data : Type := option nat.

Definition Entry (r c m : string -> bool) (s : value Data)
  : SecurityPolicyEntry Data :=
  {| roles := r; classes := c; methods := m; strategy := s |}.

(** 'should deny with a single denial' *)
Definition cowboy (s : bool) : SecurityPolicyEntry Data :=
  Entry (String.eqb "Cowboy") (String.eqb "Foo") (String.eqb "bar")
    (VBoolean s).

Definition single_denial : MethodAccessController Data :=
  new_MethodAccessController
    (Some [cowboy true; cowboy true; cowboy false]).

(** 'should grant when one role of many is granted' *)
Definition one_of_many : MethodAccessController Data :=
  new_MethodAccessController
    (Some [ Entry (String.eqb "Manager") re_dot_star re_dot_star
              (VBoolean true);
            Entry (String.eqb "Teller") (String.eqb "Foo")
              (String.eqb "snafu") (VBoolean true) ]).

(** 'should deny when a role among many is denied' *)
Definition one_denied : MethodAccessController Data :=
  new_MethodAccessController
    (Some [ Entry (String.eqb "Dummy") re_dot_star re_dot_star
              (VBoolean false);
            Entry (String.eqb "Teller") (String.eqb "Foo")
              (String.eqb "bar") (VBoolean true) ]).

(** 'should work with crazy custom strategy': managers close accounts on
    even calendar days only. *)
Definition even_days (arg : StrategyArg Data) : bool :=
  String.eqb (arg_role arg) "MANAGER" &&
  match arg_data arg with
  | Some dayOfMonth => Nat.even dayOfMonth
  | None => false
  end.

Definition even_days_entry : SecurityPolicyEntry Data :=
  Entry re_dot_star (String.eqb "Account") (String.eqb "close")
    (VFunction even_days).

Definition crazy : MethodAccessController Data :=
  new_MethodAccessController (Some [even_days_entry]).

(** An entry for role [Auditor] whose strategy is an object, after an
    entry that denies role [Dummy]. *)
Definition with_object_strategy : MethodAccessController Data :=
  new_MethodAccessController
    (Some [ Entry (String.eqb "Dummy") re_dot_star re_dot_star
              (VBoolean false);
            Entry (String.eqb "Auditor") re_dot_star re_dot_star VOther ]).

(** A policy whose only strategy is the reference ["./flag.json"], and a
    module table in which that file holds the JSON value [true]. *)
Definition flag_modules : gmap string (value Data) :=
  {[ "./flag.json" := VBoolean true ]}.

Definition by_reference : MethodAccessController Data :=
  new_MethodAccessController
    (Some [ Entry re_dot_star re_dot_star re_dot_star
              (VString "./flag.json") ]).

(** No module is loaded. *)
Definition no_modules : gmap string (value Data) := ∅.

(** A role name that holds a line feed. *)
Definition two_lines : string := "a" +:+ LF +:+ "b".

End Examples.

(** * Further vocabulary

    Words for the properties that follow the claims of the specification:
    what the code does with nested role arrays, with whole policies and with
    the failure of [require]. *)

(** The role names of a request, from left to right, through every level of
    nesting. *)
Fixpoint names (r : Role) : list string :=
  match r with
  | RoleName name => [name]
  | RoleArray elements => List.flat_map names elements
  end.

(** [Array.prototype.includes (true)] over the results of a [map] that may
    have thrown. *)
Definition any_true (c : completion (list bool)) : completion bool :=
  do results <- c ;; Return (includes results true).

(** Two calls made one after the other, both always made, their answers
    joined by "or". *)
Definition both_then_or (a b : completion bool) : completion bool :=
  do x <- a ;; do y <- b ;; Return (x || y).

Section MoreVocabulary.
Context {Data : Type} (modules : gmap string (value Data)).

(** The three matchers of an entry accept the request. *)
Definition entry_matches (it : SecurityPolicyEntry Data)
    (role clazz method : string) : bool :=
  roles it role && classes it clazz && methods it method.

(** An entry that grants the request in permit mode: a literal [true], or a
    function (given as such or by reference) answering [true]. *)
Definition granting (arg : StrategyArg Data) (it : SecurityPolicyEntry Data)
  : bool :=
  match strategy it with
  | VBoolean b => b
  | s =>
      match callable modules s with
      | Some f => f arg
      | None => false
      end
  end.

(** An entry [_interrogate] can evaluate without throwing: a boolean literal,
    a function, or a reference bound to a function. *)
Definition evaluable (it : SecurityPolicyEntry Data) : bool :=
  match strategy it with
  | VBoolean _ => true
  | s =>
      match callable modules s with
      | Some _ => true
      | None => false
      end
  end.

(** The entry with a reference replaced by the function it is bound to;
    every other entry is left as it is. *)
Definition inline_reference (it : SecurityPolicyEntry Data)
  : SecurityPolicyEntry Data :=
  match strategy it with
  | VString id =>
      match modules !! id with
      | Some (VFunction f) =>
          {| roles := roles it; classes := classes it;
             methods := methods it; strategy := VFunction f |}
      | _ => it
      end
  | _ => it
  end.

End MoreVocabulary.

(** * More example policies *)

Module MoreExamples.
Import Examples.

(** A policy given as the empty array: it is kept, not replaced by the
    default policy. *)
Definition empty_policy : MethodAccessController Data :=
  new_MethodAccessController (Some []).



(** The two entries of 'should grant when one role of many is granted'. *)
Definition manager_anywhere : SecurityPolicyEntry Data :=
  Entry (String.eqb "Manager") re_dot_star re_dot_star (VBoolean true).

Definition teller_snafu : SecurityPolicyEntry Data :=
  Entry (String.eqb "Teller") (String.eqb "Foo") (String.eqb "snafu")
    (VBoolean true).

(** A request with nested arrays of roles. *)
Definition nested_roles : Role :=
  RoleArray [RoleArray [RoleName "Teller"]; RoleName "Manager"].

End MoreExamples.

(** * A caller: the class [Account] of the unit tests

    [MethodAccessController.spec.js], 'should work with a custom strategy'
    (the README shows the same class).  Every account builds the same
    controller; its [balance] is an integer; [open] is not set before
    [close] has run. *)

Module AccountTest.

Record Account : Type := mkAccount {
  id : string;
  balance : Z;
  open : option bool
}.

(** [/^.+$/.test(s)]: at least one character, and no line terminator. *)
Definition re_dot_plus (s : string) : bool :=
  negb (String.eqb s "") && negb (has_line_terminator s).

(** [it => it.role === 'MANAGER' || it.data?.balance < 10000] *)
Definition account_strategy (it : StrategyArg Account) : bool :=
  String.eqb (arg_role it) "MANAGER" || (balance (arg_data it) <? 10000)%Z.

Definition controller : MethodAccessController Account :=
  new_MethodAccessController
    (Some [ mkEntry re_dot_plus (String.eqb "Account") (String.eqb "close")
              (VFunction account_strategy) ]).

(** How [close] completes: the account closed, the error
    [E_ACCESS_DENIED], or an error thrown by the controller. *)
Inductive close_completion : Type :=
| Closed (this : Account)
| E_ACCESS_DENIED
| Thrown (e : error).

(** [close ()], with [roles] the value of [context.user?.roles]. *)
Definition close (modules : gmap string (value Account))
    (roles : option (list Role)) (this : Account) : close_completion :=
  match roles with
  | Some roles =>
      match array_map
              (fun role => grants modules controller role
                             "Account" "close" this) roles with
      | Throw e => Thrown e
      | Return results =>
          if negb (includes results true) then E_ACCESS_DENIED
          else Closed (mkAccount (id this) (balance this) (Some false))
      end
  | None => Closed (mkAccount (id this) (balance this) (Some false))
  end.

End AccountTest.

(** * Properties *)

Section Properties.
Context {Data : Type} (modules : gmap string (value Data)).

Implicit Types (this : MethodAccessController Data).
Implicit Types (it : SecurityPolicyEntry Data).
Implicit Types (entries rest pre : list (SecurityPolicyEntry Data)).
Implicit Types (role clazz method : string) (data : Data).
Implicit Types (permit : bool).

(** One turn of the loop of [_interrogate]. *)
Lemma _interrogate_cons it rest role clazz method data permit :
  _interrogate modules (it :: rest) role clazz method data permit =
  match strategy it with
  | VBoolean b =>
      if Bool.eqb b permit then Return true
      else _interrogate modules rest role clazz method data permit
  | s =>
      match after_resolution modules s with
      | None =>
          match s with
          | VString id => Throw (MODULE_NOT_FOUND id)
          | _ => Throw E_STRATEGY_NOT_A_FUNCTION
          end
      | Some (VFunction f) =>
          if Bool.eqb (f (mkArg role clazz method data)) permit
          then Return permit
          else _interrogate modules rest role clazz method data permit
      | Some _ => Throw E_STRATEGY_NOT_A_FUNCTION
      end
  end.
Proof.
  cbn [_interrogate].
  destruct (strategy it) as [b|f|id|]; cbn; try reflexivity.
  - destruct permit, (f _); reflexivity.
  - unfold require. destruct (modules !! id) as [[b|f| |]|]; cbn; try reflexivity.
    destruct permit, (f _); reflexivity.
Qed.

Lemma _interrogate_skipped it rest role clazz method data permit :
  skipped modules permit (mkArg role clazz method data) it = true ->
  _interrogate modules (it :: rest) role clazz method data permit =
  _interrogate modules rest role clazz method data permit.
Proof.
  rewrite _interrogate_cons. unfold skipped, callable.
  destruct (strategy it) as [b|f|id|]; cbn.
  - destruct (Bool.eqb b permit); [discriminate | reflexivity].
  - destruct permit, (f _); cbn; try discriminate; reflexivity.
  - destruct (modules !! id) as [[b|f| |]|]; try discriminate.
    destruct permit, (f _); cbn; try discriminate; reflexivity.
  - discriminate.
Qed.

Lemma _interrogate_reach pre rest role clazz method data permit :
  forallb (skipped modules permit (mkArg role clazz method data)) pre = true ->
  _interrogate modules (pre ++ rest) role clazz method data permit =
  _interrogate modules rest role clazz method data permit.
Proof.
  induction pre as [|it pre IH]; [reflexivity|].
  cbn [forallb app]. intros [Hit Hpre]%andb_prop.
  rewrite _interrogate_skipped by exact Hit. apply IH, Hpre.
Qed.

(** An entry that is skipped can be taken out of the sequence, wherever it
    stands, without changing the answer. *)
Lemma _interrogate_drop_skipped pre it rest role clazz method data permit :
  skipped modules permit (mkArg role clazz method data) it = true ->
  _interrogate modules (pre ++ it :: rest) role clazz method data permit =
  _interrogate modules (pre ++ rest) role clazz method data permit.
Proof.
  intros Hit. induction pre as [|x pre IH]; cbn [app].
  - apply _interrogate_skipped, Hit.
  - rewrite !(_interrogate_cons x), IH. reflexivity.
Qed.

Lemma skipped_opposite_literal it permit arg :
  strategy it = VBoolean (negb permit) -> skipped modules permit arg it = true.
Proof.
  unfold skipped. intros ->. destruct permit; reflexivity.
Qed.

(** ** Interrogation of the matched entries *)

(** C5. Literal decisiveness and default deny: in either mode, a reached
    entry whose strategy is the literal equal to the mode makes
    [_interrogate] return [true]; an entry whose literal is the opposite of
    the mode is passed over, wherever it stands, so that the answer is the
    one of the sequence without it; and when every entry is passed over the
    answer is [false]. *)
Theorem literal_decisiveness_and_default_deny
    permit role clazz method data :
  let arg := mkArg role clazz method data in
  (forall pre it rest,
      forallb (skipped modules permit arg) pre = true ->
      strategy it = VBoolean permit ->
      _interrogate modules (pre ++ it :: rest) role clazz method data permit
      = Return true)
  /\ (forall pre it rest,
      strategy it = VBoolean (negb permit) ->
      _interrogate modules (pre ++ it :: rest) role clazz method data permit
      = _interrogate modules (pre ++ rest) role clazz method data permit)
  /\ (forall entries,
      forallb (skipped modules permit arg) entries = true ->
      _interrogate modules entries role clazz method data permit
      = Return false).
Proof.
  intros arg. split; [|split].
  - intros pre it rest Hpre Hit.
    rewrite _interrogate_reach by exact Hpre.
    rewrite _interrogate_cons, Hit.
    destruct permit; reflexivity.
  - intros pre it rest Hit.
    apply _interrogate_drop_skipped, skipped_opposite_literal, Hit.
  - intros entries Hall.
    rewrite <- (app_nil_r entries).
    rewrite _interrogate_reach by exact Hall. reflexivity.
Qed.

(** C2. Dynamic-strategy asymmetry: when the interrogation reaches an entry
    whose strategy is a function [f] (given as such, or by a reference that
    resolves to it), then in permit mode an answer [true] ends the
    interrogation with [true] and an answer [false] hands over to the next
    entry, while in deny mode an answer [false] ends the interrogation (its
    result is [false], whatever the entries that follow) and an answer
    [true] hands over to the next entry. *)
Theorem dynamic_strategy_asymmetry
    pre it rest f role clazz method data :
  let arg := mkArg role clazz method data in
  callable modules (strategy it) = Some f ->
  (forallb (skipped modules true arg) pre = true ->
   _interrogate modules (pre ++ it :: rest) role clazz method data true =
   if f arg then Return true
   else _interrogate modules rest role clazz method data true)
  /\
  (forallb (skipped modules false arg) pre = true ->
   _interrogate modules (pre ++ it :: rest) role clazz method data false =
   if f arg then _interrogate modules rest role clazz method data false
   else Return false).
Proof.
  intros arg Hf.
  assert (Hstep : forall permit,
    _interrogate modules (it :: rest) role clazz method data permit =
    if Bool.eqb (f arg) permit then Return permit
    else _interrogate modules rest role clazz method data permit).
  { intros permit. rewrite _interrogate_cons.
    unfold callable in Hf.
    destruct (strategy it) as [b|g|id|]; cbn in *; try discriminate.
    - injection Hf as ->. reflexivity.
    - destruct (modules !! id) as [[b|g| |]|]; try discriminate.
      injection Hf as ->. reflexivity. }
  split; intros Hpre; rewrite _interrogate_reach by exact Hpre;
    rewrite Hstep; destruct (f arg); reflexivity.
Qed.

(** ** One role *)

Lemma permits_RoleName this role clazz method data :
  permits modules this (RoleName role) clazz method data =
  not_denied_and_permitted
    (_denies modules (_findEntries this role clazz method)
       role clazz method data)
    (_permits modules (_findEntries this role clazz method)
       role clazz method data).
Proof.
  cbn [permits]. unfold bind, not_denied_and_permitted.
  destruct (_denies _ _ _ _ _ _) as [[|]|e]; reflexivity.
Qed.

Lemma not_denied_and_permitted_true (d p : completion bool) :
  not_denied_and_permitted d p = Return true <->
  d = Return false /\ p = Return true.
Proof.
  unfold not_denied_and_permitted. split.
  - destruct d as [[|]|e]; try discriminate. intros ->. split; reflexivity.
  - intros [-> ->]. reflexivity.
Qed.

(** C3. Single-role composition: for a single role, [permits] is
    [!_denies && _permits] over the entries [_findEntries] matched, the
    denial asked first and the permission not asked at all once a denial is
    found; so [permits] answers [true] exactly when the interrogation in
    deny mode answers [false] and the one in permit mode answers [true],
    and it answers [false] on a denial whatever the interrogation in permit
    mode would have done. *)
Theorem single_role_permits_composition this role clazz method data :
  let entries := _findEntries this role clazz method in
  let denied := _interrogate modules entries role clazz method data false in
  let permitted := _interrogate modules entries role clazz method data true in
  permits modules this (RoleName role) clazz method data
  = not_denied_and_permitted denied permitted
  /\ (permits modules this (RoleName role) clazz method data = Return true
      <-> denied = Return false /\ permitted = Return true)
  /\ (denied = Return true ->
      permits modules this (RoleName role) clazz method data = Return false)
  /\ (forall e, denied = Throw e ->
      permits modules this (RoleName role) clazz method data = Throw e).
Proof.
  intros entries denied permitted.
  assert (Heq : permits modules this (RoleName role) clazz method data
                = not_denied_and_permitted denied permitted)
    by apply permits_RoleName.
  split; [exact Heq|]. rewrite Heq. split; [|split].
  - apply not_denied_and_permitted_true.
  - intros ->. reflexivity.
  - intros e ->. reflexivity.
Qed.

(** ** Matching *)

Lemma filter_sublist {A} (p : A -> bool) (l : list A) :
  sublist (List.filter p l) l.
Proof.
  induction l as [|x l IH]; cbn; [constructor|].
  destruct (p x); [apply sublist_skip | apply sublist_cons]; exact IH.
Qed.

Lemma filter_greatest {A} (p : A -> bool) (l k : list A) :
  sublist k l -> Forall (fun x => p x = true) k ->
  sublist k (List.filter p l).
Proof.
  induction 1 as [|x k l _ IH|x k l _ IH]; intros Hk; cbn.
  - constructor.
  - apply Forall_cons in Hk as [-> Hk]. apply sublist_skip, IH, Hk.
  - destruct (p x); [apply sublist_cons|]; apply IH, Hk.
Qed.

(** C7. Matcher correctness: [_findEntries] selects, in the order of the
    policy, exactly the entries whose three matchers accept the role, the
    class and the method: the result is a subsequence of the policy, all
    its entries match, every subsequence of matching policy entries is a
    subsequence of it, an entry is in it exactly when it is a matching
    entry of the policy, and when no entry matches the result is the empty
    sequence. *)
Theorem findEntries_selects_matching_in_order this role clazz method :
  let matching it :=
    roles it role = true /\ classes it clazz = true
    /\ methods it method = true in
  let found := _findEntries this role clazz method in
  sublist found (_policy this)
  /\ Forall matching found
  /\ (forall l, sublist l (_policy this) -> Forall matching l ->
             sublist l found)
  /\ (forall it, In it found <-> In it (_policy this) /\ matching it)
  /\ (Forall (fun it => ~ matching it) (_policy this) -> found = []).
Proof.
  intros matching found. unfold found, _findEntries.
  set (p := fun it : SecurityPolicyEntry Data =>
              roles it role && classes it clazz && methods it method).
  assert (Hp : forall it, p it = true <-> matching it).
  { intros it. unfold p, matching. rewrite !andb_true_iff. tauto. }
  split; [apply filter_sublist|].
  split; [apply List.Forall_forall; intros it [_ H]%filter_In; apply Hp, H|].
  split.
  { intros l Hl Hm. apply filter_greatest; [exact Hl|].
    eapply Forall_impl; [exact Hm|]. intros it. apply Hp. }
  split.
  { intros it. rewrite filter_In, Hp. reflexivity. }
  intros Hnone. induction (_policy this) as [|it l IH]; [reflexivity|].
  apply Forall_cons in Hnone as [Hit Hl]. cbn.
  destruct (p it) eqn:E; [apply Hp in E; contradiction | apply IH, Hl].
Qed.

(** ** Arrays of roles *)

Lemma array_map_Return {A B} (f : A -> completion B) l ys :
  array_map f l = Return ys <-> Forall2 (fun x y => f x = Return y) l ys.
Proof.
  revert ys. induction l as [|x l IH]; intros ys; cbn.
  - split.
    + intros [= <-]. constructor.
    + intros H. inversion H. reflexivity.
  - destruct (f x) as [y|e] eqn:Ex.
    + destruct (array_map f l) as [zs|e] eqn:El.
      * split.
        -- intros [= <-]. constructor; [exact Ex | apply IH; reflexivity].
        -- intros H. inversion H as [|? y' ? zs' Hy Hzs]; subst.
           rewrite Ex in Hy. injection Hy as <-.
           apply IH in Hzs. injection Hzs as <-. reflexivity.
      * split; [discriminate|].
        intros H. inversion H as [|? y' ? zs' Hy Hzs]; subst.
        apply IH in Hzs. discriminate.
    + split; [discriminate|].
      intros H. inversion H as [|? y' ? zs' Hy Hzs]; subst.
      rewrite Ex in Hy. discriminate.
Qed.

Lemma array_map_returns {A B} (f : A -> completion B) l :
  Forall (fun x => returns (f x)) l <-> returns (array_map f l).
Proof.
  induction l as [|x l IH]; cbn.
  - split; [eexists; reflexivity | constructor].
  - rewrite Forall_cons, IH. unfold returns.
    destruct (f x) as [y|e]; [destruct (array_map f l) as [ys|e]|].
    + split; [eexists; reflexivity | split; eexists; reflexivity].
    + split; [intros [_ [? [=]]] | intros [? [=]]].
    + split; [intros [[? [=]] _] | intros [? [=]]].
Qed.

(** The first element whose call throws decides how the whole [map]
    throws. *)
Lemma array_map_Throw {A B} (f : A -> completion B) l e :
  array_map f l = Throw e <->
  exists l1 x l2, l = l1 ++ x :: l2
    /\ Forall (fun x => returns (f x)) l1 /\ f x = Throw e.
Proof.
  induction l as [|x l IH]; cbn.
  - split; [discriminate|]. intros (l1 & y & l2 & H & _).
    destruct l1; discriminate.
  - destruct (f x) as [y|e'] eqn:Ex.
    + destruct (array_map f l) as [ys|e''] eqn:El.
      * split; [discriminate|]. intros (l1 & z & l2 & H & Hpre & Hz).
        destruct l1 as [|x' l1]; cbn in H; injection H as -> ->.
        -- rewrite Ex in Hz. discriminate.
        -- apply Forall_cons in Hpre as [_ Hpre].
           assert (H' : Return ys = Throw e)
             by (apply IH; exists l1, z, l2; auto).
           discriminate H'.
      * split.
        -- intros [= ->]. destruct IH as [IH _].
           destruct (IH eq_refl) as (l1 & z & l2 & -> & Hpre & Hz).
           exists (x :: l1), z, l2. split; [reflexivity|].
           split; [|exact Hz]. constructor; [|exact Hpre].
           exists y. exact Ex.
        -- intros (l1 & z & l2 & H & Hpre & Hz).
           destruct l1 as [|x' l1]; cbn in H; injection H as -> ->.
           ++ rewrite Ex in Hz. discriminate.
           ++ apply Forall_cons in Hpre as [_ Hpre].
              apply IH. exists l1, z, l2. auto.
    + split.
      * intros [= ->]. exists [], x, l. split; [reflexivity|].
        split; [constructor | exact Ex].
      * intros (l1 & z & l2 & H & Hpre & Hz).
        destruct l1 as [|x' l1]; cbn in H; injection H as -> ->.
        -- rewrite Ex in Hz. injection Hz as ->. reflexivity.
        -- apply Forall_cons in Hpre as [[? Hx] _].
           rewrite Ex in Hx. discriminate.
Qed.

Lemma array_map_singleton {A B} (f : A -> completion B) x :
  array_map f [x] =
  match f x with Return y => Return [y] | Throw e => Throw e end.
Proof. reflexivity. Qed.

Lemma denies_RoleArray this elements clazz method data :
  denies modules this (RoleArray elements) clazz method data =
  do results <- array_map (fun r => denies modules this r clazz method data)
                  elements ;;
  Return (includes results true).
Proof. reflexivity. Qed.

Lemma permits_RoleArray this elements clazz method data :
  permits modules this (RoleArray elements) clazz method data =
  do denied <- array_map (fun r => denies modules this r clazz method data)
                 elements ;;
  if negb (includes denied true) then
    do permitted <- array_map
                      (fun r => permits modules this r clazz method data)
                      elements ;;
    Return (includes permitted true)
  else Return false.
Proof. reflexivity. Qed.

(** [permits] asks [denies] first, whatever the shape of the role. *)
Lemma permits_after_denies this (r : Role) clazz method data :
  permits modules this r clazz method data =
  match denies modules this r clazz method data with
  | Throw e => Throw e
  | Return true => Return false
  | Return false => permits modules this r clazz method data
  end.
Proof.
  destruct r as [name|elements].
  - rewrite permits_RoleName. cbn [denies].
    destruct (_denies _ _ _ _ _ _) as [[|]|e]; reflexivity.
  - rewrite permits_RoleArray, denies_RoleArray.
    destruct (array_map _ elements) as [ds|e]; cbn; [|reflexivity].
    destruct (includes ds true); reflexivity.
Qed.

(** C1. Deny overrides grant: for every policy and every request, with one
    role or an array of roles, when [permits] returns [true] then [denies]
    returns [false]; the two never answer [true] together. *)
Theorem permits_implies_not_denies this (r : Role) clazz method data :
  permits modules this r clazz method data = Return true ->
  denies modules this r clazz method data = Return false.
Proof.
  rewrite permits_after_denies.
  destruct (denies modules this r clazz method data) as [[|]|e];
    [discriminate | reflexivity | discriminate].
Qed.

(** C10. Singleton role array: with the role given as the one-element
    array [[r]], [permits] and [denies] complete exactly as they do with the
    role given as the string [r]. *)
Theorem singleton_role_array_collapse this (r : string) clazz method data :
  permits modules this (RoleArray [RoleName r]) clazz method data
  = permits modules this (RoleName r) clazz method data
  /\ denies modules this (RoleArray [RoleName r]) clazz method data
     = denies modules this (RoleName r) clazz method data.
Proof.
  pose proof (permits_after_denies this (RoleName r) clazz method data) as H.
  rewrite permits_RoleArray, denies_RoleArray, !array_map_singleton.
  cbv beta.
  set (D := denies modules this (RoleName r) clazz method data) in *.
  set (P := permits modules this (RoleName r) clazz method data) in *.
  clearbody D P. destruct D as [[|]|e]; cbn.
  - rewrite H. split; reflexivity.
  - split; [|reflexivity]. destruct P as [[|]|e]; reflexivity.
  - rewrite H. split; reflexivity.
Qed.

Lemma permits_returns_denies_returns this (r : Role) clazz method data :
  returns (permits modules this r clazz method data) ->
  returns (denies modules this r clazz method data).
Proof.
  rewrite permits_after_denies. unfold returns.
  destruct (denies modules this r clazz method data) as [d|e].
  - intros _. exists d. reflexivity.
  - intros [? [=]].
Qed.

Lemma results_include_true {A} (f : A -> completion bool) l ys :
  Forall2 (fun x y => f x = Return y) l ys ->
  includes ys true = true <-> Exists (fun x => f x = Return true) l.
Proof.
  induction 1 as [|x y l ys Hxy _ IH].
  - cbn. rewrite Exists_nil. split; [discriminate | tauto].
  - rewrite Exists_cons, <- IH. unfold includes. cbn [existsb].
    rewrite orb_true_iff, Hxy. destruct y; cbn.
    + split; auto.
    + split; intros [H|H]; try discriminate; auto.
Qed.

Lemma results_include_no_true {A} (f : A -> completion bool) l ys :
  Forall2 (fun x y => f x = Return y) l ys ->
  includes ys true = false <-> Forall (fun x => f x = Return false) l.
Proof.
  induction 1 as [|x y l ys Hxy _ IH].
  - cbn. split; [constructor | reflexivity].
  - rewrite Forall_cons, <- IH. unfold includes. cbn [existsb].
    rewrite orb_false_iff, Hxy. destruct y; cbn.
    + split; [intros [[=] _] | intros [[=] _]].
    + split; intros [_ H]; auto.
Qed.

(** C4 as the code has it.  Multi-role resolution: the calls on the
    elements are all made, in order, before their results are combined.
    When the [denies] call of every element returns, [denies] on the array
    returns, and it answers [true] exactly when the call of some element
    does; when the [permits] call of every element returns, [permits] on
    the array returns, and it answers [true] exactly when [denies] answers
    [false] for every element and [permits] answers [true] for some
    element; when the [denies] call of some element throws, neither call on
    the array returns; on the empty array both answer [false]. *)
Theorem multi_role_resolution this (elements : list Role)
    clazz method data :
  let denies_of r := denies modules this r clazz method data in
  let permits_of r := permits modules this r clazz method data in
  (Forall (fun r => returns (denies_of r)) elements ->
     returns (denies_of (RoleArray elements))
     /\ (denies_of (RoleArray elements) = Return true <->
         Exists (fun r => denies_of r = Return true) elements))
  /\ (Forall (fun r => returns (permits_of r)) elements ->
     returns (permits_of (RoleArray elements))
     /\ (permits_of (RoleArray elements) = Return true <->
         Forall (fun r => denies_of r = Return false) elements
         /\ Exists (fun r => permits_of r = Return true) elements))
  /\ (Exists (fun r => ~ returns (denies_of r)) elements ->
     ~ returns (denies_of (RoleArray elements))
     /\ ~ returns (permits_of (RoleArray elements)))
  /\ denies_of (RoleArray []) = Return false
  /\ permits_of (RoleArray []) = Return false.
Proof.
  intros denies_of permits_of.
  assert (HD : denies_of (RoleArray elements) =
               do results <- array_map denies_of elements ;;
               Return (includes results true)) by reflexivity.
  assert (HP : permits_of (RoleArray elements) =
               do denied <- array_map denies_of elements ;;
               if negb (includes denied true) then
                 do permitted <- array_map permits_of elements ;;
                 Return (includes permitted true)
               else Return false) by reflexivity.
  assert (Hpd : forall r, returns (permits_of r) -> returns (denies_of r))
    by (intros r; apply permits_returns_denies_returns).
  split; [|split; [|split; [|split; reflexivity]]];
    rewrite ?HD, ?HP; clear HD HP; clearbody denies_of permits_of.
  - intros Hd.
    destruct (proj1 (array_map_returns denies_of elements) Hd) as [ds Eds].
    rewrite Eds. cbn. split; [eexists; reflexivity|].
    apply array_map_Return in Eds.
    rewrite <- (results_include_true denies_of elements ds Eds).
    split; [intros [= ->]; reflexivity | intros ->; reflexivity].
  - intros Hp.
    assert (Hd : Forall (fun r => returns (denies_of r)) elements).
    { eapply Forall_impl; [exact Hp|]. exact Hpd. }
    destruct (proj1 (array_map_returns denies_of elements) Hd) as [ds Eds].
    destruct (proj1 (array_map_returns permits_of elements) Hp) as [ps Eps].
    rewrite Eds, Eps. cbn.
    apply array_map_Return in Eds, Eps.
    rewrite <- (results_include_no_true denies_of elements ds Eds).
    rewrite <- (results_include_true permits_of elements ps Eps).
    destruct (includes ds true); cbn.
    + split; [eexists; reflexivity|].
      split; [discriminate | intros [[=] _]].
    + split; [eexists; reflexivity|].
      split; [intros [= ->]; auto | intros [_ ->]; reflexivity].
  - intros Hex.
    assert (Hno : ~ returns (array_map denies_of elements)).
    { intros Hr. apply array_map_returns in Hr.
      apply List.Exists_exists in Hex as (r & Hin & Hr').
      apply Hr'. exact (proj1 (List.Forall_forall _ _) Hr r Hin). }
    destruct (array_map denies_of elements) as [ds|e].
    + exfalso. apply Hno. eexists; reflexivity.
    + cbn. split; intros [? [=]].
Qed.

(** ** Failures *)

(** What one turn of the loop does, by the kind of the entry at the head:
    it is passed over, or it throws [E_STRATEGY_NOT_A_FUNCTION], or it ends
    the loop in another way (an answer, or the failure of [require]). *)
Lemma _interrogate_head it rest role clazz method data permit :
  let arg := mkArg role clazz method data in
  let run l := _interrogate modules l role clazz method data permit in
  (skipped modules permit arg it = true
   /\ not_a_function modules it = false
   /\ run (it :: rest) = run rest)
  \/ (skipped modules permit arg it = false
      /\ not_a_function modules it = true
      /\ run (it :: rest) = Throw E_STRATEGY_NOT_A_FUNCTION)
  \/ (skipped modules permit arg it = false
      /\ not_a_function modules it = false
      /\ run (it :: rest) <> Throw E_STRATEGY_NOT_A_FUNCTION).
Proof.
  intros arg run. unfold run. rewrite _interrogate_cons.
  unfold skipped, not_a_function, callable.
  destruct (strategy it) as [b|f|id|]; cbn.
  - destruct b, permit; cbn; auto; right; right; auto.
  - fold arg. destruct (f arg), permit; cbn; auto; right; right; auto.
  - destruct (modules !! id) as [[b|f| |]|]; cbn; auto.
    fold arg. destruct (f arg), permit; cbn; auto; right; right; auto.
  - auto.
Qed.

(** [_interrogate] throws [E_STRATEGY_NOT_A_FUNCTION] exactly when the loop
    gets as far as an entry that is no boolean literal and, once a string
    reference is looked up, no function. *)
Lemma _interrogate_not_a_function entries role clazz method data permit :
  _interrogate modules entries role clazz method data permit
  = Throw E_STRATEGY_NOT_A_FUNCTION <->
  exists pre it rest,
    entries = pre ++ it :: rest
    /\ forallb (skipped modules permit (mkArg role clazz method data)) pre
       = true
    /\ not_a_function modules it = true.
Proof.
  induction entries as [|x entries IH].
  - cbn. split; [discriminate|].
    intros (pre & it & rest & H & _). destruct pre; discriminate.
  - destruct (_interrogate_head x entries role clazz method data permit)
      as [(Hs & Hn & Hrun)|[(Hs & Hn & Hrun)|(Hs & Hn & Hrun)]].
    + rewrite Hrun, IH. split.
      * intros (pre & it & rest & -> & Hpre & Hit).
        exists (x :: pre), it, rest. cbn. rewrite Hs. auto.
      * intros (pre & it & rest & H & Hpre & Hit).
        destruct pre as [|y pre]; cbn in H; injection H as -> ->.
        -- congruence.
        -- cbn in Hpre. apply andb_prop in Hpre as [_ Hpre].
           exists pre, it, rest. auto.
    + split; [|intros _; exact Hrun].
      intros _. exists [], x, entries. auto.
    + split; [intros H; contradiction|].
      intros (pre & it & rest & H & Hpre & Hit).
      destruct pre as [|y pre]; cbn in H; injection H as -> ->.
      -- congruence.
      -- cbn in Hpre. apply andb_prop in Hpre as [Hy _]. congruence.
Qed.

(** C8 as the code has it.  Strategy-not-callable error, for a request
    with one role: [denies] throws [E_STRATEGY_NOT_A_FUNCTION] exactly when
    the interrogation in deny mode reaches a matched entry whose strategy
    is no boolean literal and, once a string reference is looked up, no
    function (a reference that resolves to a boolean is such an entry);
    [permits] throws it exactly when the interrogation in deny mode does,
    or that one answers [false] and the interrogation in permit mode
    reaches such an entry.  With an array of roles, the error of the first
    element whose call throws is the error of the call on the array: it is
    not swallowed, and no decision is returned. *)
Theorem strategy_not_a_function_error this role clazz method data :
  let arg := mkArg role clazz method data in
  let entries := _findEntries this role clazz method in
  let reaches permit it :=
    exists pre rest, entries = pre ++ it :: rest
      /\ forallb (skipped modules permit arg) pre = true in
  (denies modules this (RoleName role) clazz method data
   = Throw E_STRATEGY_NOT_A_FUNCTION <->
   exists it, reaches false it /\ not_a_function modules it = true)
  /\
  (permits modules this (RoleName role) clazz method data
   = Throw E_STRATEGY_NOT_A_FUNCTION <->
   (exists it, reaches false it /\ not_a_function modules it = true)
   \/ (_denies modules entries role clazz method data = Return false
       /\ exists it, reaches true it /\ not_a_function modules it = true))
  /\
  (forall (elements : list Role) e,
      denies modules this (RoleArray elements) clazz method data = Throw e
      <-> exists l1 r l2, elements = l1 ++ r :: l2
          /\ Forall (fun r => returns
                                (denies modules this r clazz method data)) l1
          /\ denies modules this r clazz method data = Throw e)
  /\
  (forall (elements : list Role) e,
      permits modules this (RoleArray elements) clazz method data = Throw e
      <-> denies modules this (RoleArray elements) clazz method data
          = Throw e
          \/ (denies modules this (RoleArray elements) clazz method data
              = Return false
              /\ exists l1 r l2, elements = l1 ++ r :: l2
                  /\ Forall (fun r => returns
                         (permits modules this r clazz method data)) l1
                  /\ permits modules this r clazz method data = Throw e)).
Proof.
  intros arg entries reaches.
  assert (Hreach : forall permit,
    _interrogate modules entries role clazz method data permit
    = Throw E_STRATEGY_NOT_A_FUNCTION <->
    exists it, reaches permit it /\ not_a_function modules it = true).
  { intros permit. rewrite _interrogate_not_a_function. unfold reaches.
    split.
    - intros (pre & it & rest & H1 & H2 & H3). exists it. split; [|exact H3].
      exists pre, rest. auto.
    - intros (it & (pre & rest & H1 & H2) & H3). exists pre, it, rest. auto. }
  split; [|split; [|split]].
  - cbn [denies]. unfold _denies. fold entries. apply Hreach.
  - rewrite permits_RoleName. fold entries.
    rewrite <- !Hreach. unfold _denies, _permits.
    destruct (_interrogate modules entries role clazz method data false)
      as [[|]|e]; cbn.
    + split; [discriminate | intros [[=]|[[=] _]]].
    + split; [intros H; right; auto | intros [[=]|[_ H]]; exact H].
    + split; [intros H; left; exact H | intros [H|[[=] _]]; exact H].
  - intros elements e. rewrite denies_RoleArray, <- array_map_Throw.
    destruct (array_map _ elements) as [ds|e']; cbn;
      split; congruence.
  - intros elements e.
    rewrite permits_RoleArray, denies_RoleArray, <- array_map_Throw.
    destruct (array_map _ elements) as [ds|e']; cbn.
    + destruct (includes ds true); cbn.
      * split; [discriminate | intros [[=]|[[=] _]]].
      * destruct (array_map _ elements) as [ps|e'']; cbn.
        -- split; [discriminate | intros [[=]|[_ [=]]]].
        -- split; [intros [= ->]; right; auto
                  | intros [[=]|[_ [= ->]]]; reflexivity].
    + split; [intros [= ->]; left; reflexivity
             | intros [[= ->]|[[=] _]]; reflexivity].
Qed.

(** ** What can deny *)

(** Over boolean and function strategies, the scan for denial stops at the
    first entry that is a literal [false] or a function answering [false],
    and answers [true] only for the literal. *)
Lemma _interrogate_deny_scan entries role clazz method data :
  Forall (fun it => boolean_or_function it = true) entries ->
  _interrogate modules entries role clazz method data false =
  Return
    match List.find (false_literal_or_false_function
                       (mkArg role clazz method data)) entries with
    | Some it => is_boolean (strategy it)
    | None => false
    end.
Proof.
  induction 1 as [|it entries Hit _ IH]; [reflexivity|].
  rewrite _interrogate_cons, IH. cbn [List.find].
  unfold boolean_or_function in Hit.
  unfold false_literal_or_false_function.
  destruct (strategy it) as [b|f|id|] eqn:E; cbn in *; try discriminate.
  - destruct b; cbn; rewrite ?E; reflexivity.
  - destruct (f _); cbn; rewrite ?E; reflexivity.
Qed.

(** C9. Only a literal [false] can deny: for a request with one role whose
    matched entries all carry a boolean or a function, [denies] returns
    [true] exactly when the first matched entry that is a literal [false]
    or a function answering [false] exists and is a literal [false]; when
    that first entry is a function, [denies] returns [false], whatever
    follows it, a literal [false] included. *)
Theorem only_literal_false_denies this role clazz method data :
  let arg := mkArg role clazz method data in
  let entries := _findEntries this role clazz method in
  Forall (fun it => boolean_or_function it = true) entries ->
  (denies modules this (RoleName role) clazz method data = Return true <->
   exists it,
     List.find (false_literal_or_false_function arg) entries = Some it
     /\ strategy it = VBoolean false)
  /\
  (forall pre it rest f,
      entries = pre ++ it :: rest ->
      forallb (fun x => negb (false_literal_or_false_function arg x)) pre
      = true ->
      strategy it = VFunction f -> f arg = false ->
      denies modules this (RoleName role) clazz method data = Return false).
Proof.
  intros arg entries Hwf. cbn [denies]. unfold _denies. fold entries.
  rewrite (_interrogate_deny_scan entries role clazz method data Hwf).
  fold arg. split.
  - destruct (List.find _ entries) as [it|] eqn:Efind.
    + split.
      * intros [= Hb]. exists it. split; [reflexivity|].
        apply find_some in Efind as [_ Hstop].
        unfold false_literal_or_false_function in Hstop.
        destruct (strategy it) as [[|]| | |]; cbn in *;
          try discriminate; reflexivity.
      * intros (it' & [= <-] & ->). reflexivity.
    + split; [discriminate | intros (it' & [=] & _)].
  - intros pre it rest f -> Hpre Hit Hf.
    assert (Efind : List.find (false_literal_or_false_function arg)
                      (pre ++ it :: rest) = Some it).
    { clear Hwf. induction pre as [|x pre IH]; cbn.
      - unfold false_literal_or_false_function at 1. rewrite Hit, Hf.
        reflexivity.
      - cbn in Hpre. apply andb_prop in Hpre as [Hx Hpre].
        destruct (false_literal_or_false_function arg x);
          [discriminate | apply IH, Hpre]. }
    rewrite Efind, Hit. reflexivity.
Qed.

(** ** The default policy *)

(** With no policy given, nothing is ever denied, and a single role is
    permitted exactly when the role, the class and the method hold no line
    terminator: [/^.*$/] accepts no other string. *)
Lemma default_policy_decisions role clazz method data :
  denies modules (new_MethodAccessController None) (RoleName role)
    clazz method data = Return false
  /\ permits modules (new_MethodAccessController None) (RoleName role)
       clazz method data
     = Return (re_dot_star role && re_dot_star clazz && re_dot_star method).
Proof.
  cbn. destruct (re_dot_star role && re_dot_star clazz && re_dot_star method);
    split; reflexivity.
Qed.

End Properties.

(** * The theorems at the example policies *)

Import Examples.

Lemma permits_implies_not_denies_witness :
  permits no_modules one_of_many
    (RoleArray [RoleName "Teller"; RoleName "Manager"]) "Foo" "bar" None
  = Return true
  /\ denies no_modules one_of_many
       (RoleArray [RoleName "Teller"; RoleName "Manager"]) "Foo" "bar" None
     = Return false.
Proof.
  split; [reflexivity|].
  apply (permits_implies_not_denies no_modules one_of_many). reflexivity.
Defined.

Lemma dynamic_strategy_asymmetry_witness :
  _interrogate no_modules [cowboy false; even_days_entry; cowboy true]
    "MANAGER" "Account" "close" (Some 2) true = Return true
  /\ _interrogate no_modules [cowboy true; even_days_entry; cowboy false]
       "MANAGER" "Account" "close" (Some 1) false = Return false.
Proof.
  split.
  - apply (proj1 (dynamic_strategy_asymmetry no_modules
                    [cowboy false] even_days_entry [cowboy true] even_days
                    "MANAGER" "Account" "close" (Some 2) eq_refl)).
    reflexivity.
  - apply (proj2 (dynamic_strategy_asymmetry no_modules
                    [cowboy true] even_days_entry [cowboy false] even_days
                    "MANAGER" "Account" "close" (Some 1) eq_refl)).
    reflexivity.
Defined.

Lemma literal_decisiveness_and_default_deny_witness :
  _interrogate no_modules [cowboy true; cowboy false; cowboy true]
    "Cowboy" "Foo" "bar" None false = Return true
  /\ _interrogate no_modules [cowboy true; cowboy true; cowboy false]
       "Cowboy" "Foo" "bar" None false
     = _interrogate no_modules [cowboy true; cowboy false]
         "Cowboy" "Foo" "bar" None false
  /\ _interrogate no_modules [cowboy true; cowboy true]
       "Cowboy" "Foo" "bar" None false = Return false.
Proof.
  destruct (literal_decisiveness_and_default_deny no_modules
              false "Cowboy" "Foo" "bar" None) as (Hequal & Hopposite & Hnone).
  split; [|split].
  - apply (Hequal [cowboy true] (cowboy false) [cowboy true]); reflexivity.
  - apply (Hopposite [cowboy true] (cowboy true) [cowboy false]). reflexivity.
  - apply (Hnone [cowboy true; cowboy true]). reflexivity.
Defined.

Lemma single_role_permits_composition_witness :
  _interrogate no_modules (_findEntries single_denial "Cowboy" "Foo" "bar")
    "Cowboy" "Foo" "bar" None false = Return true
  /\ permits no_modules single_denial (RoleName "Cowboy") "Foo" "bar" None
     = Return false.
Proof.
  split; [reflexivity|].
  apply (single_role_permits_composition no_modules single_denial
           "Cowboy" "Foo" "bar" None).
  reflexivity.
Defined.

Lemma findEntries_selects_matching_in_order_witness :
  sublist [cowboy false] (_findEntries single_denial "Cowboy" "Foo" "bar")
  /\ _findEntries single_denial "Sheriff" "Foo" "bar" = [].
Proof.
  split.
  - apply (findEntries_selects_matching_in_order single_denial
             "Cowboy" "Foo" "bar").
    + apply sublist_cons, sublist_cons, sublist_skip, sublist_nil.
    + repeat constructor.
  - apply (findEntries_selects_matching_in_order single_denial
             "Sheriff" "Foo" "bar").
    repeat constructor; intros (H & _); discriminate H.
Defined.

(** C4. The claim as the specification words it fails when the call of an
    element throws: [denies] answers [true] for the element ["Dummy"], and
    [denies] on the array [["Dummy", "Auditor"]] throws instead of answering
    [true]. *)
Lemma multi_role_any_fails_on_a_throwing_element :
  ~ (denies no_modules with_object_strategy
       (RoleArray [RoleName "Dummy"; RoleName "Auditor"]) "Foo" "bar" None
     = Return true
     <-> Exists (fun r => denies no_modules with_object_strategy r
                            "Foo" "bar" None = Return true)
           [RoleName "Dummy"; RoleName "Auditor"]).
Proof.
  intros [_ H].
  assert (E : denies no_modules with_object_strategy
                (RoleArray [RoleName "Dummy"; RoleName "Auditor"])
                "Foo" "bar" None = Return true)
    by (apply H; left; reflexivity).
  discriminate E.
Qed.

Lemma multi_role_resolution_witness :
  denies no_modules one_denied
    (RoleArray [RoleName "Teller"; RoleName "Dummy"]) "Foo" "bar" None
  = Return true
  /\ permits no_modules one_of_many
       (RoleArray [RoleName "Teller"; RoleName "Manager"]) "Foo" "bar" None
     = Return true
  /\ ~ returns (permits no_modules with_object_strategy
                  (RoleArray [RoleName "Dummy"; RoleName "Auditor"])
                  "Foo" "bar" None).
Proof.
  split; [|split].
  - apply (multi_role_resolution no_modules one_denied
             [RoleName "Teller"; RoleName "Dummy"] "Foo" "bar" None).
    + repeat constructor; eexists; reflexivity.
    + right; left; reflexivity.
  - apply (multi_role_resolution no_modules one_of_many
             [RoleName "Teller"; RoleName "Manager"] "Foo" "bar" None).
    + repeat constructor; eexists; reflexivity.
    + split; [repeat constructor | right; left; reflexivity].
  - apply (multi_role_resolution no_modules with_object_strategy
             [RoleName "Dummy"; RoleName "Auditor"] "Foo" "bar" None).
    right; left. intros [b Hb]. discriminate Hb.
Defined.

(** C8. The claim as the specification words it fails on a reference that
    resolves to a boolean: the only matched entry resolves to [true], so no
    matched entry is "neither a boolean nor a callable" once resolved, and
    yet [denies] throws [E_STRATEGY_NOT_A_FUNCTION]. *)
Lemma reference_to_a_boolean_is_not_a_function :
  denies flag_modules by_reference (RoleName "Teller") "Foo" "bar" None
  = Throw E_STRATEGY_NOT_A_FUNCTION
  /\ forallb (fun it => negb (neither_boolean_nor_callable flag_modules it))
       (_findEntries by_reference "Teller" "Foo" "bar") = true.
Proof.
  split; vm_compute; reflexivity.
Qed.

Lemma strategy_not_a_function_error_witness :
  permits flag_modules by_reference (RoleName "Teller") "Foo" "bar" None
  = Throw E_STRATEGY_NOT_A_FUNCTION
  /\ denies no_modules with_object_strategy
       (RoleArray [RoleName "Dummy"; RoleName "Auditor"]) "Foo" "bar" None
     = Throw E_STRATEGY_NOT_A_FUNCTION.
Proof.
  split.
  - apply (strategy_not_a_function_error flag_modules by_reference
             "Teller" "Foo" "bar" None).
    left. eexists. split; [exists [], []; split; reflexivity|].
    vm_compute; reflexivity.
  - apply (strategy_not_a_function_error no_modules with_object_strategy
             "Auditor" "Foo" "bar" None).
    exists [RoleName "Dummy"], (RoleName "Auditor"), [].
    split; [reflexivity|]. split; [|reflexivity].
    repeat constructor. eexists; reflexivity.
Defined.

Lemma only_literal_false_denies_witness :
  denies no_modules single_denial (RoleName "Cowboy") "Foo" "bar" None
  = Return true
  /\ denies no_modules crazy (RoleName "MANAGER") "Account" "close" (Some 1)
     = Return false.
Proof.
  split.
  - apply (only_literal_false_denies no_modules single_denial
             "Cowboy" "Foo" "bar" None).
    + repeat constructor.
    + exists (cowboy false). split; reflexivity.
  - apply (proj2 (only_literal_false_denies no_modules crazy
                    "MANAGER" "Account" "close" (Some 1)
                    ltac:(repeat constructor))
             [] even_days_entry [] even_days); reflexivity.
Defined.

(** C6. With no policy given, a request whose role holds a line feed is not
    permitted: [/^.*$/] does not accept the role, so no entry matches. *)
Theorem default_policy_rejects_line_terminator :
  _findEntries (new_MethodAccessController None) two_lines "Foo" "bar"
  = ([] : list (SecurityPolicyEntry Data))
  /\ permits no_modules (new_MethodAccessController None)
       (RoleName two_lines) "Foo" "bar" None
     = Return false
  /\ permits no_modules (new_MethodAccessController None)
       (RoleName "anything") "Any" "any" None
     = Return true.
Proof.
  repeat split.
Qed.


(** * Beyond the claims of the specification *)

(** Induction on a role: the elements of an array are roles again. *)
Lemma Role_tree_ind (P : Role -> Prop) :
  (forall name, P (RoleName name)) ->
  (forall elements, Forall P elements -> P (RoleArray elements)) ->
  forall r, P r.
Proof.
  intros Hname Harray.
  refine (fix IH (r : Role) : P r :=
            match r with
            | RoleName name => Hname name
            | RoleArray elements =>
                Harray elements
                  ((fix all (l : list Role) : Forall P l :=
                      match l with
                      | [] => @List.Forall_nil _ P
                      | x :: rest => @List.Forall_cons _ P x rest (IH x) (all rest)
                      end) elements)
            end).
Qed.

Section Coverage.
Context {Data : Type} (modules : gmap string (value Data)).

Implicit Types (this : MethodAccessController Data).
Implicit Types (it : SecurityPolicyEntry Data).
Implicit Types (entries rest pre : list (SecurityPolicyEntry Data)).
Implicit Types (role clazz method : string) (data : Data).
Implicit Types (permit : bool) (r : Role).

(** ** Helpers on [map] and [includes] *)

Lemma array_map_ext_in {A B} (f g : A -> completion B) (l : list A) :
  Forall (fun x => f x = g x) l -> array_map f l = array_map g l.
Proof.
  induction 1 as [|x l Hx _ IH]; cbn; [reflexivity|].
  rewrite Hx, IH. reflexivity.
Qed.

Lemma array_map_all_false {A} (f : A -> completion bool) (l : list A) :
  Forall (fun x => f x = Return false) l ->
  any_true (array_map f l) = Return false.
Proof.
  induction 1 as [|x l Hx _ IH]; [reflexivity|].
  unfold any_true in *. cbn. rewrite Hx.
  destruct (array_map f l) as [ys|e]; cbn in *; [|discriminate].
  injection IH as IH. unfold includes in *. cbn. rewrite IH. reflexivity.
Qed.

Lemma any_true_cons {A} (f : A -> completion bool) x (l : list A) :
  any_true (array_map f (x :: l)) =
  both_then_or (f x) (any_true (array_map f l)).
Proof.
  unfold any_true, both_then_or. cbn.
  destruct (f x) as [y|e]; cbn; [|reflexivity].
  destruct (array_map f l) as [ys|e]; [destruct y|]; reflexivity.
Qed.

Lemma any_true_app {A} (f : A -> completion bool) (l1 l2 : list A) :
  any_true (array_map f (l1 ++ l2)) =
  both_then_or (any_true (array_map f l1)) (any_true (array_map f l2)).
Proof.
  induction l1 as [|x l1 IH]; cbn [app].
  - unfold both_then_or. cbn.
    destruct (any_true (array_map f l2)) as [b|e]; reflexivity.
  - rewrite !any_true_cons, IH. unfold both_then_or.
    destruct (f x) as [y|e]; cbn; [|reflexivity].
    destruct (any_true (array_map f l1)) as [b1|e]; cbn; [|reflexivity].
    destruct (any_true (array_map f l2)) as [b2|e]; cbn; [|reflexivity].
    rewrite orb_assoc. reflexivity.
Qed.

Lemma denies_any_true this (elements : list Role) clazz method data :
  denies modules this (RoleArray elements) clazz method data =
  any_true (array_map (fun r => denies modules this r clazz method data)
              elements).
Proof. reflexivity. Qed.

Lemma permits_any_true this (elements : list Role) clazz method data :
  permits modules this (RoleArray elements) clazz method data =
  match denies modules this (RoleArray elements) clazz method data with
  | Throw e => Throw e
  | Return true => Return false
  | Return false =>
      any_true (array_map (fun r => permits modules this r clazz method data)
                  elements)
  end.
Proof.
  rewrite permits_RoleArray, denies_RoleArray. unfold any_true.
  destruct (array_map _ elements) as [ds|e]; cbn; [|reflexivity].
  destruct (includes ds true); reflexivity.
Qed.

Lemma any_true_true {A} (f : A -> completion bool) (l : list A) :
  any_true (array_map f l) = Return true ->
  exists x, In x l /\ f x = Return true.
Proof.
  induction l as [|x l IH]; [discriminate|].
  rewrite any_true_cons. unfold both_then_or.
  destruct (f x) as [[|]|e] eqn:Ex; cbn; try discriminate.
  - intros _. exists x. split; [left; reflexivity | exact Ex].
  - destruct (any_true (array_map f l)) as [[|]|e]; cbn; try discriminate.
    intros _. destruct (IH eq_refl) as (y & Hin & Hy).
    exists y. split; [right; exact Hin | exact Hy].
Qed.

(** ** Requests that no entry matches *)

(** X1. Absence is not denial: when no entry of the policy matches any of
    the role names of a request, [denies] returns [false] and [permits]
    returns [false], for a role name and for every array of roles. *)
Theorem unmatched_request_is_neither_permitted_nor_denied
    this r clazz method data :
  Forall (fun name => _findEntries this name clazz method = []) (names r) ->
  denies modules this r clazz method data = Return false
  /\ permits modules this r clazz method data = Return false.
Proof.
  induction r as [name|elements IH] using Role_tree_ind; cbn [names].
  - intros Hnone. apply Forall_cons in Hnone as [Hnone _].
    rewrite permits_RoleName. cbn [denies]. rewrite Hnone.
    split; reflexivity.
  - intros Hnone.
    assert (Hall : Forall (fun x =>
              denies modules this x clazz method data = Return false
              /\ permits modules this x clazz method data = Return false)
              elements).
    { induction IH as [|x l Hx _ IHl]; [constructor|].
      cbn in Hnone. apply Forall_app in Hnone as [Hx' Hl].
      constructor; [apply Hx, Hx' | apply IHl, Hl]. }
    assert (Hd : denies modules this (RoleArray elements) clazz method data
                 = Return false).
    { rewrite denies_any_true. apply array_map_all_false.
      eapply Forall_impl; [exact Hall|]. intros x [H _]. exact H. }
    split; [exact Hd|].
    rewrite permits_any_true, Hd. apply array_map_all_false.
    eapply Forall_impl; [exact Hall|]. intros x [_ H]. exact H.
Qed.

(** ** What a decision rests on *)

Lemma _interrogate_deny_cause entries role clazz method data :
  _interrogate modules entries role clazz method data false = Return true ->
  exists it, In it entries /\ strategy it = VBoolean false.
Proof.
  induction entries as [|x entries IH]; [discriminate|].
  rewrite _interrogate_cons. intros H.
  assert (Hrest : _interrogate modules entries role clazz method data false
                  = Return true ->
                  exists it, In it (x :: entries)
                             /\ strategy it = VBoolean false).
  { intros H'. destruct (IH H') as (it & Hin & Hit).
    exists it. split; [right; exact Hin | exact Hit]. }
  destruct (strategy x) as [[|]|f|id|] eqn:Ex; cbn in H.
  - apply Hrest, H.
  - exists x. split; [left; reflexivity | exact Ex].
  - destruct (f _); cbn in H; [apply Hrest, H | discriminate].
  - destruct (modules !! id) as [[b|f| |]|]; try discriminate.
    destruct (f _); cbn in H; [apply Hrest, H | discriminate].
  - discriminate.
Qed.

Lemma _interrogate_permit_step it rest role clazz method data :
  _interrogate modules (it :: rest) role clazz method data true
  = Return true ->
  granting modules (mkArg role clazz method data) it = true
  \/ _interrogate modules rest role clazz method data true = Return true.
Proof.
  rewrite _interrogate_cons. unfold granting, callable.
  destruct (strategy it) as [[|]|f|id|]; cbn; auto.
  - destruct (f _); cbn; auto.
  - destruct (modules !! id) as [[b|f| |]|]; try discriminate.
    destruct (f _); cbn; auto.
  - discriminate.
Qed.

Lemma _interrogate_permit_cause entries role clazz method data :
  _interrogate modules entries role clazz method data true = Return true ->
  exists it, In it entries
             /\ granting modules (mkArg role clazz method data) it = true.
Proof.
  induction entries as [|x entries IH]; [discriminate|].
  intros H. apply _interrogate_permit_step in H as [Hx|Hrest].
  - exists x. split; [left; reflexivity | exact Hx].
  - destruct (IH Hrest) as (it & Hin & Hit).
    exists it. split; [right; exact Hin | exact Hit].
Qed.

(** X2. Every decision [true] rests on an entry: when [denies] returns
    [true], some role name of the request matches an entry whose strategy is
    the literal [false]; when [permits] returns [true], some role name of the
    request matches an entry that is the literal [true] or a function
    answering [true] for that name.  That holds for every policy and every
    role, without any assumption on the other entries. *)
Theorem decisions_rest_on_an_entry this r clazz method data :
  (denies modules this r clazz method data = Return true ->
   exists name it,
     In name (names r) /\ In it (_findEntries this name clazz method)
     /\ strategy it = VBoolean false)
  /\
  (permits modules this r clazz method data = Return true ->
   exists name it,
     In name (names r) /\ In it (_findEntries this name clazz method)
     /\ granting modules (mkArg name clazz method data) it = true).
Proof.
  induction r as [name|elements IH] using Role_tree_ind; cbn [names].
  - split.
    + cbn [denies]. unfold _denies. intros H.
      apply _interrogate_deny_cause in H as (it & Hin & Hit).
      exists name, it. split; [left; reflexivity | auto].
    + rewrite permits_RoleName. intros H.
      apply not_denied_and_permitted_true in H as [_ H].
      apply _interrogate_permit_cause in H as (it & Hin & Hit).
      exists name, it. split; [left; reflexivity | auto].
  - split.
    + rewrite denies_any_true. intros H.
      apply any_true_true in H as (x & Hin & Hx).
      apply (proj1 (List.Forall_forall _ _) IH x Hin) in Hx
        as (name & it & Hname & Hit).
      exists name, it. split; [|exact Hit].
      apply in_flat_map. exists x. auto.
    + rewrite permits_any_true.
      destruct (denies modules this (RoleArray elements) clazz method data)
        as [[|]|e]; try discriminate.
      intros H. apply any_true_true in H as (x & Hin & Hx).
      apply (proj2 (proj1 (List.Forall_forall _ _) IH x Hin)) in Hx
        as (name & it & Hname & Hit).
      exists name, it. split; [|exact Hit].
      apply in_flat_map. exists x. auto.
Qed.

(** ** When nothing is thrown, and when [require] fails *)

Lemma any_true_pure {A} (f : A -> completion bool) (g : A -> bool) l :
  Forall (fun x => f x = Return (g x)) l ->
  any_true (array_map f l) = Return (existsb g l).
Proof.
  induction 1 as [|x l Hx _ IH]; [reflexivity|].
  rewrite any_true_cons, Hx, IH. reflexivity.
Qed.




(** One turn of the loop either passes the entry over, or ends the loop as
    the entry alone would. *)
Lemma _interrogate_skip_or_stop it rest role clazz method data permit :
  let run l := _interrogate modules l role clazz method data permit in
  (skipped modules permit (mkArg role clazz method data) it = true
   /\ run (it :: rest) = run rest /\ run [it] = Return false)
  \/ (skipped modules permit (mkArg role clazz method data) it = false
      /\ run (it :: rest) = run [it]).
Proof.
  intros run. unfold run. rewrite !(_interrogate_cons modules it).
  unfold skipped, callable.
  destruct (strategy it) as [b|f|id|]; cbn.
  - destruct (Bool.eqb b permit); cbn; auto.
  - destruct permit, (f _); cbn; auto.
  - destruct (modules !! id) as [[b|f| |]|]; cbn; auto.
    destruct permit, (f _); cbn; auto.
  - auto.
Qed.

(** [_interrogate] throws what the first entry that is not passed over
    throws. *)
Lemma _interrogate_Throw entries role clazz method data permit e :
  _interrogate modules entries role clazz method data permit = Throw e <->
  exists pre it rest,
    entries = pre ++ it :: rest
    /\ forallb (skipped modules permit (mkArg role clazz method data)) pre
       = true
    /\ _interrogate modules [it] role clazz method data permit = Throw e.
Proof.
  induction entries as [|x entries IH].
  - cbn. split; [discriminate|].
    intros (pre & it & rest & H & _). destruct pre; discriminate.
  - destruct (_interrogate_skip_or_stop x entries role clazz method data permit)
      as [(Hs & Hrun & Hone)|(Hs & Hrun)]; rewrite Hrun.
    + rewrite IH. split.
      * intros (pre & it & rest & -> & Hpre & Hit).
        exists (x :: pre), it, rest. cbn. rewrite Hs. auto.
      * intros (pre & it & rest & H & Hpre & Hit).
        destruct pre as [|y pre]; cbn in H; injection H as -> ->.
        -- congruence.
        -- cbn in Hpre. apply andb_prop in Hpre as [_ Hpre].
           exists pre, it, rest. auto.
    + split.
      * intros H. exists [], x, entries. auto.
      * intros (pre & it & rest & H & Hpre & Hit).
        destruct pre as [|y pre]; cbn in H; injection H as -> ->.
        -- exact Hit.
        -- cbn in Hpre. apply andb_prop in Hpre as [Hy _]. congruence.
Qed.

Lemma _interrogate_one_MODULE_NOT_FOUND it role clazz method data permit id :
  _interrogate modules [it] role clazz method data permit
  = Throw (MODULE_NOT_FOUND id) <->
  strategy it = VString id /\ modules !! id = None.
Proof.
  rewrite _interrogate_cons.
  destruct (strategy it) as [b|f|id'|]; cbn.
  - split; [destruct (Bool.eqb b permit); discriminate | intros [[=] _]].
  - split; [destruct (Bool.eqb _ permit); discriminate | intros [[=] _]].
  - destruct (modules !! id') as [[b|f| |]|] eqn:E; cbn.
    + split; [discriminate | intros [[= ->] H]; congruence].
    + split; [destruct (Bool.eqb _ permit); discriminate
             | intros [[= ->] H]; congruence].
    + split; [discriminate | intros [[= ->] H]; congruence].
    + split; [discriminate | intros [[= ->] H]; congruence].
    + split; [intros [= ->]; auto | intros [[= ->] _]; reflexivity].
  - split; [discriminate | intros [[=] _]].
Qed.

(** X4. Failure of [require], for a request with one role: [denies] throws
    the error of [require] for the module [id] exactly when the
    interrogation in deny mode reaches a matched entry whose strategy is the
    string [id] and no module is bound to [id]; [permits] throws it exactly
    when the interrogation in deny mode does, or that one answers [false]
    and the interrogation in permit mode reaches such an entry. *)
Theorem unresolved_reference_error this role clazz method data id :
  let arg := mkArg role clazz method data in
  let entries := _findEntries this role clazz method in
  let reaches permit it :=
    exists pre rest, entries = pre ++ it :: rest
      /\ forallb (skipped modules permit arg) pre = true in
  let unresolved it := strategy it = VString id /\ modules !! id = None in
  (denies modules this (RoleName role) clazz method data
   = Throw (MODULE_NOT_FOUND id) <->
   exists it, reaches false it /\ unresolved it)
  /\
  (permits modules this (RoleName role) clazz method data
   = Throw (MODULE_NOT_FOUND id) <->
   (exists it, reaches false it /\ unresolved it)
   \/ (_denies modules entries role clazz method data = Return false
       /\ exists it, reaches true it /\ unresolved it)).
Proof.
  intros arg entries reaches unresolved.
  assert (Hreach : forall permit,
    _interrogate modules entries role clazz method data permit
    = Throw (MODULE_NOT_FOUND id) <->
    exists it, reaches permit it /\ unresolved it).
  { intros permit. rewrite _interrogate_Throw. unfold reaches, unresolved.
    split.
    - intros (pre & it & rest & H1 & H2 & H3).
      apply _interrogate_one_MODULE_NOT_FOUND in H3.
      exists it. split; [exists pre, rest; auto | exact H3].
    - intros (it & (pre & rest & H1 & H2) & H3).
      exists pre, it, rest. split; [exact H1|]. split; [exact H2|].
      apply _interrogate_one_MODULE_NOT_FOUND, H3. }
  split.
  - cbn [denies]. unfold _denies. fold entries. apply Hreach.
  - rewrite permits_RoleName. fold entries.
    rewrite <- !Hreach. unfold _denies, _permits.
    destruct (_interrogate modules entries role clazz method data false)
      as [[|]|e]; cbn.
    + split; [discriminate | intros [[=]|[[=] _]]].
    + split; [intros H; right; auto | intros [[=]|[_ H]]; exact H].
    + split; [intros H; left; exact H | intros [H|[[=] _]]; exact H].
Qed.

(** ** References and the functions they are bound to *)

Lemma _interrogate_inline entries role clazz method data permit :
  _interrogate modules (map (inline_reference modules) entries)
    role clazz method data permit
  = _interrogate modules entries role clazz method data permit.
Proof.
  induction entries as [|it entries IH]; [reflexivity|].
  cbn [map]. rewrite !_interrogate_cons, IH.
  unfold inline_reference.
  destruct (strategy it) as [b|f|id|] eqn:E; rewrite ?E; try reflexivity.
  destruct (modules !! id) as [[b|f| |]|] eqn:Eid; rewrite ?E; cbn;
    rewrite ?Eid; reflexivity.
Qed.

Lemma _findEntries_inline (policy : SecurityPolicy Data) role clazz method :
  _findEntries {| _policy := map (inline_reference modules) policy |}
    role clazz method
  = map (inline_reference modules)
      (_findEntries {| _policy := policy |} role clazz method).
Proof.
  unfold _findEntries. cbn [_policy].
  induction policy as [|it policy IH]; [reflexivity|].
  cbn [map List.filter].
  assert (Hsame : roles (inline_reference modules it) role
                  && classes (inline_reference modules it) clazz
                  && methods (inline_reference modules it) method
                  = roles it role && classes it clazz && methods it method).
  { unfold inline_reference.
    destruct (strategy it) as [b|f|id|]; try reflexivity.
    destruct (modules !! id) as [[b|f| |]|]; reflexivity. }
  rewrite Hsame, IH.
  destruct (roles it role && classes it clazz && methods it method);
    reflexivity.
Qed.

(** X5. Writing the function in place of its reference changes nothing:
    the policy in which every string strategy bound to a function is
    replaced by that function makes [denies] and [permits] complete exactly
    as the policy with the references does, for every role. *)
Theorem inlining_references_changes_nothing
    (policy : SecurityPolicy Data) r clazz method data :
  let inlined := {| _policy := map (inline_reference modules) policy |} in
  let original := {| _policy := policy |} in
  denies modules inlined r clazz method data
  = denies modules original r clazz method data
  /\ permits modules inlined r clazz method data
     = permits modules original r clazz method data.
Proof.
  intros inlined original.
  induction r as [name|elements IH] using Role_tree_ind.
  - rewrite !permits_RoleName. cbn [denies]. unfold _denies, _permits.
    unfold inlined. rewrite _findEntries_inline, !_interrogate_inline.
    split; reflexivity.
  - rewrite !permits_any_true, !denies_any_true.
    rewrite (array_map_ext_in
               (fun x => denies modules inlined x clazz method data)
               (fun x => denies modules original x clazz method data))
      by (eapply Forall_impl; [exact IH|]; intros x [H _]; exact H).
    rewrite (array_map_ext_in
               (fun x => permits modules inlined x clazz method data)
               (fun x => permits modules original x clazz method data))
      by (eapply Forall_impl; [exact IH|]; intros x [_ H]; exact H).
    split; reflexivity.
Qed.

(** ** Order of the entries *)

Lemma _interrogate_permit_turn it rest role clazz method data :
  evaluable modules it = true ->
  _interrogate modules (it :: rest) role clazz method data true
  = if granting modules (mkArg role clazz method data) it then Return true
    else _interrogate modules rest role clazz method data true.
Proof.
  rewrite _interrogate_cons. unfold evaluable, granting, callable.
  destruct (strategy it) as [[|]|f|id|]; cbn; try reflexivity.
  - destruct (f _); reflexivity.
  - destruct (modules !! id) as [[b|f| |]|]; try discriminate.
    destruct (f _); reflexivity.
  - discriminate.
Qed.

Lemma _interrogate_permit_scan entries role clazz method data :
  Forall (fun it => evaluable modules it = true) entries ->
  _interrogate modules entries role clazz method data true
  = Return (existsb (granting modules (mkArg role clazz method data)) entries).
Proof.
  induction 1 as [|it entries Hit _ IH]; [reflexivity|].
  rewrite _interrogate_permit_turn by exact Hit. rewrite IH. cbn [existsb].
  destruct (granting modules _ it); reflexivity.
Qed.



(** In deny mode the order matters only through functions: over boolean
    literals the scan is a search for a literal [false]. *)
Lemma _interrogate_static_deny entries role clazz method data :
  Forall (fun it => is_boolean (strategy it) = true) entries ->
  _interrogate modules entries role clazz method data false
  = Return (existsb (fun it => negb (granting modules
                                       (mkArg role clazz method data) it))
              entries).
Proof.
  induction 1 as [|it entries Hit _ IH]; [reflexivity|].
  assert (Hturn :
    _interrogate modules (it :: entries) role clazz method data false
    = if negb (granting modules (mkArg role clazz method data) it)
      then Return true
      else _interrogate modules entries role clazz method data false).
  { rewrite _interrogate_cons. unfold granting.
    destruct (strategy it) as [[|]|f|id|]; cbn in *; try discriminate;
      reflexivity. }
  rewrite Hturn, IH. cbn [existsb].
  destruct (negb (granting modules _ it)); reflexivity.
Qed.

(** X7. A static policy: when the entries matched by a request with one role
    all carry boolean literals, [denies] returns [true] exactly when one of
    them is [false], and [permits] returns [true] exactly when there is at
    least one and all of them are [true]; where they stand in the policy
    does not matter. *)
Theorem static_policy_decisions this role clazz method data :
  let entries := _findEntries this role clazz method in
  Forall (fun it => is_boolean (strategy it) = true) entries ->
  (denies modules this (RoleName role) clazz method data = Return true <->
   Exists (fun it => strategy it = VBoolean false) entries)
  /\ (denies modules this (RoleName role) clazz method data = Return false <->
      Forall (fun it => strategy it = VBoolean true) entries)
  /\ (permits modules this (RoleName role) clazz method data = Return true <->
      entries <> [] /\ Forall (fun it => strategy it = VBoolean true) entries)
  /\ returns (permits modules this (RoleName role) clazz method data).
Proof.
  intros entries Hstatic.
  assert (Hev : Forall (fun it => evaluable modules it = true) entries).
  { eapply Forall_impl; [exact Hstatic|]. intros it. unfold evaluable.
    destruct (strategy it); cbn; try discriminate; reflexivity. }
  rewrite permits_RoleName. cbn [denies]. unfold _denies, _permits.
  fold entries. rewrite (_interrogate_static_deny entries) by exact Hstatic.
  rewrite (_interrogate_permit_scan entries) by exact Hev.
  set (arg := mkArg role clazz method data).
  assert (Hfalse : existsb (fun it => negb (granting modules arg it)) entries
                   = true <->
                   Exists (fun it => strategy it = VBoolean false) entries).
  { clear Hev. induction Hstatic as [|it l Hit _ IH]; cbn.
    - rewrite Exists_nil. split; [discriminate | tauto].
    - rewrite Exists_cons, orb_true_iff, IH. unfold granting.
      destruct (strategy it) as [[|]| | |]; cbn in *; try discriminate.
      + split; intros [H|H]; try discriminate; auto.
      + split; auto. }
  assert (Htrue : existsb (fun it => negb (granting modules arg it)) entries
                  = false <->
                  Forall (fun it => strategy it = VBoolean true) entries).
  { clear Hev Hfalse. induction Hstatic as [|it l Hit _ IH]; cbn.
    - split; [constructor | reflexivity].
    - rewrite Forall_cons, orb_false_iff, IH. unfold granting.
      destruct (strategy it) as [[|]| | |]; cbn in *; try discriminate.
      + split; intros [_ H]; auto.
      + split; intros [[=] _]. }
  assert (Hsome : Forall (fun it => strategy it = VBoolean true) entries ->
                  existsb (granting modules arg) entries
                  = negb (match entries with [] => true | _ => false end)).
  { intros Hall. destruct Hall as [|it l Hit _]; [reflexivity|].
    cbn. unfold granting at 1. rewrite Hit. reflexivity. }
  split; [|split; [|split]].
  - rewrite <- Hfalse. split; [intros [= ->]; reflexivity | intros ->; reflexivity].
  - rewrite <- Htrue. split; [intros [= ->]; reflexivity | intros ->; reflexivity].
  - destruct (existsb (fun it => negb (granting modules arg it)) entries)
      eqn:Ed; cbn.
    + split; [discriminate|]. intros [_ Hall]. apply Htrue in Hall. discriminate.
    + pose proof (proj1 Htrue eq_refl) as Hall. rewrite (Hsome Hall).
      destruct entries; cbn; split; try discriminate; auto.
      * intros [H _]. contradiction.
  - destruct (existsb (fun it => negb (granting modules arg it)) entries);
      cbn; eexists; reflexivity.
Qed.

(** X8. Two runs of entries, one after the other.  In permit mode
    [_interrogate] over [l1 ++ l2] is a lazy "or": the answer of [l1] when it
    is [true] or a throw, the answer of [l2] otherwise.  In deny mode an
    answer [true] or a throw of [l1] is final as well, but an answer [false]
    is not handed over in general (a function answering [false] ends the
    loop). *)
Theorem interrogation_of_a_concatenation l1 l2 role clazz method data :
  _interrogate modules (l1 ++ l2) role clazz method data true
  = match _interrogate modules l1 role clazz method data true with
    | Return true => Return true
    | Return false => _interrogate modules l2 role clazz method data true
    | Throw e => Throw e
    end
  /\ (_interrogate modules l1 role clazz method data false = Return true ->
      _interrogate modules (l1 ++ l2) role clazz method data false
      = Return true)
  /\ (forall e,
      _interrogate modules l1 role clazz method data false = Throw e ->
      _interrogate modules (l1 ++ l2) role clazz method data false = Throw e).
Proof.
  split; [|split].
  - induction l1 as [|it l1 IH]; cbn [app].
    + reflexivity.
    + rewrite !(_interrogate_cons modules it), IH.
      destruct (strategy it) as [[|]|f|id|]; cbn; try reflexivity.
      * destruct (f _); reflexivity.
      * destruct (modules !! id) as [[b|f| |]|]; try reflexivity.
        destruct (f _); reflexivity.
  - induction l1 as [|it l1 IH]; cbn [app]; [discriminate|].
    rewrite !(_interrogate_cons modules it).
    destruct (strategy it) as [[|]|f|id|]; cbn; auto.
    + destruct (f _); cbn; auto.
    + destruct (modules !! id) as [[b|f| |]|]; auto.
      destruct (f _); cbn; auto.
  - intros e. induction l1 as [|it l1 IH]; cbn [app]; [discriminate|].
    rewrite !(_interrogate_cons modules it).
    destruct (strategy it) as [[|]|f|id|]; cbn; auto.
    + destruct (f _); cbn; auto.
    + destruct (modules !! id) as [[b|f| |]|]; auto.
      destruct (f _); cbn; auto.
Qed.

(** ** Order and nesting of the roles *)

Lemma both_then_or_Return (a b : completion bool) (c : bool) :
  both_then_or a b = Return c <->
  exists x y, a = Return x /\ b = Return y /\ c = x || y.
Proof.
  unfold both_then_or. split.
  - destruct a as [x|e]; cbn; [|discriminate].
    destruct b as [y|e]; cbn; [|discriminate].
    intros [= <-]. exists x, y. auto.
  - intros (x & y & -> & -> & ->). reflexivity.
Qed.

Lemma any_true_Permutation {A} (f : A -> completion bool) (l l' : list A) :
  Permutation l l' ->
  forall b, any_true (array_map f l) = Return b ->
            any_true (array_map f l') = Return b.
Proof.
  induction 1 as [|x l l' _ IH|x y l|l l' l'' _ IH1 _ IH2]; intros b.
  - auto.
  - rewrite !any_true_cons, !both_then_or_Return.
    intros (u & v & Hu & Hv & ->). exists u, v. auto.
  - rewrite !any_true_cons, !both_then_or_Return.
    intros (u & v & Hu & Hv & ->).
    apply both_then_or_Return in Hv as (w & z & Hw & Hz & ->).
    exists w, (u || z). split; [exact Hw|]. split.
    + apply both_then_or_Return. exists u, z. auto.
    + destruct u, w, z; reflexivity.
  - intros H. apply IH2, IH1, H.
Qed.

(** X9. The order of the roles in an array does not change the decision:
    when [denies] (or [permits]) returns a decision for an array of roles, it
    returns the same decision for every reordering of the array. *)
Theorem role_order_does_not_change_the_decision
    this (l l' : list Role) clazz method data (b : bool) :
  Permutation l l' ->
  (denies modules this (RoleArray l) clazz method data = Return b ->
   denies modules this (RoleArray l') clazz method data = Return b)
  /\ (permits modules this (RoleArray l) clazz method data = Return b ->
      permits modules this (RoleArray l') clazz method data = Return b).
Proof.
  intros Hperm. split.
  - rewrite !denies_any_true. apply any_true_Permutation, Hperm.
  - rewrite !permits_any_true, !denies_any_true.
    destruct (any_true (array_map _ l)) as [d|e] eqn:Ed; [|discriminate].
    rewrite (any_true_Permutation _ l l' Hperm d Ed).
    destruct d; [auto|]. apply any_true_Permutation, Hperm.
Qed.

Lemma array_map_map {A B C} (f : B -> completion C) (g : A -> B) l :
  array_map f (map g l) = array_map (fun x => f (g x)) l.
Proof.
  induction l as [|x l IH]; cbn; [reflexivity|]. rewrite IH. reflexivity.
Qed.

Lemma any_true_flat_map {A B} (f : A -> completion bool)
    (g : B -> completion bool) (h : A -> list B) l :
  Forall (fun x => f x = any_true (array_map g (h x))) l ->
  any_true (array_map f l) = any_true (array_map g (List.flat_map h l)).
Proof.
  induction 1 as [|x l Hx _ IH]; [reflexivity|].
  cbn [List.flat_map]. rewrite any_true_cons, any_true_app, Hx, IH.
  reflexivity.
Qed.

Lemma any_true_flat_map_false {A B} (g : B -> completion bool)
    (h : A -> list B) (l : list A) :
  any_true (array_map g (List.flat_map h l)) = Return false ->
  Forall (fun x => any_true (array_map g (h x)) = Return false) l.
Proof.
  induction l as [|x l IH]; [constructor|].
  cbn [List.flat_map]. rewrite any_true_app.
  intros (u & v & Hu & Hv & Huv)%both_then_or_Return.
  symmetry in Huv. apply orb_false_elim in Huv as [-> ->].
  constructor; [exact Hu | apply IH, Hv].
Qed.

Lemma both_then_or_false_r (a : completion bool) :
  both_then_or a (Return false) = a.
Proof. destruct a as [[|]|e]; reflexivity. Qed.

Lemma denies_by_names this r clazz method data :
  denies modules this r clazz method data
  = any_true (array_map
                (fun name => denies modules this (RoleName name)
                               clazz method data) (names r)).
Proof.
  induction r as [name|elements IH] using Role_tree_ind.
  - cbn [names]. rewrite any_true_cons. cbn [array_map].
    rewrite both_then_or_false_r. reflexivity.
  - rewrite denies_any_true. cbn [names]. apply any_true_flat_map, IH.
Qed.

Lemma permits_by_names this r clazz method data :
  permits modules this r clazz method data
  = match any_true (array_map
                      (fun name => denies modules this (RoleName name)
                                     clazz method data) (names r)) with
    | Throw e => Throw e
    | Return true => Return false
    | Return false =>
        any_true (array_map
                    (fun name => permits modules this (RoleName name)
                                   clazz method data) (names r))
    end.
Proof.
  induction r as [name|elements IH] using Role_tree_ind.
  - cbn [names]. rewrite !any_true_cons. cbn [array_map].
    rewrite !both_then_or_false_r.
    apply (permits_after_denies modules this (RoleName name)).
  - rewrite permits_any_true, denies_by_names. cbn [names].
    destruct (any_true (array_map _ (List.flat_map names elements)))
      as [[|]|e] eqn:Ed; try reflexivity.
    apply any_true_flat_map.
    apply any_true_flat_map_false in Ed.
    apply List.Forall_forall. intros x Hin.
    rewrite (proj1 (List.Forall_forall _ _) IH x Hin).
    rewrite (proj1 (List.Forall_forall _ _) Ed x Hin). reflexivity.
Qed.

(** X10. Nested arrays of roles are resolved as one flat array: on an array
    whose elements are themselves arrays, to any depth, [denies] and
    [permits] complete exactly as they do on the array of all the role
    names, from left to right. *)
Theorem nested_roles_are_resolved_flat
    this (elements : list Role) clazz method data :
  let flat := RoleArray (map RoleName (names (RoleArray elements))) in
  denies modules this (RoleArray elements) clazz method data
  = denies modules this flat clazz method data
  /\ permits modules this (RoleArray elements) clazz method data
     = permits modules this flat clazz method data.
Proof.
  intros flat. unfold flat.
  set (ns := names (RoleArray elements)).
  assert (Hd : denies modules this (RoleArray (map RoleName ns))
                 clazz method data
               = any_true (array_map
                   (fun name => denies modules this (RoleName name)
                                  clazz method data) ns)).
  { rewrite denies_any_true, array_map_map. reflexivity. }
  split.
  - rewrite Hd. apply denies_by_names.
  - rewrite (permits_any_true this (map RoleName ns)), Hd, array_map_map.
    apply permits_by_names.
Qed.

(** ** Entries that do not match *)

Lemma _findEntries_without (p1 p2 : SecurityPolicy Data) it
    role clazz method :
  entry_matches it role clazz method = false ->
  _findEntries {| _policy := p1 ++ it :: p2 |} role clazz method
  = _findEntries {| _policy := p1 ++ p2 |} role clazz method.
Proof.
  unfold _findEntries, entry_matches. cbn [_policy]. intros H.
  rewrite !List.filter_app. cbn [List.filter]. rewrite H. reflexivity.
Qed.

(** X11. An entry that matches none of the role names of a request has no
    part in its decision: with the entry taken out of the policy, wherever
    it stands, [denies] and [permits] complete exactly as before (whatever
    its strategy, one that would throw included). *)
Theorem entry_that_does_not_match_is_irrelevant
    (p1 p2 : SecurityPolicy Data) it r clazz method data :
  Forall (fun name => entry_matches it name clazz method = false) (names r) ->
  denies modules {| _policy := p1 ++ it :: p2 |} r clazz method data
  = denies modules {| _policy := p1 ++ p2 |} r clazz method data
  /\ permits modules {| _policy := p1 ++ it :: p2 |} r clazz method data
     = permits modules {| _policy := p1 ++ p2 |} r clazz method data.
Proof.
  intros Hnames.
  rewrite !permits_by_names, !(denies_by_names _ r).
  assert (Hd : array_map
            (fun name => denies modules {| _policy := p1 ++ it :: p2 |}
                           (RoleName name) clazz method data) (names r)
          = array_map
            (fun name => denies modules {| _policy := p1 ++ p2 |}
                           (RoleName name) clazz method data) (names r)).
  { apply array_map_ext_in. eapply Forall_impl; [exact Hnames|].
    intros name H. cbn [denies]. rewrite (_findEntries_without _ _ _ _ _ _ H).
    reflexivity. }
  assert (Hp : array_map
            (fun name => permits modules {| _policy := p1 ++ it :: p2 |}
                           (RoleName name) clazz method data) (names r)
          = array_map
            (fun name => permits modules {| _policy := p1 ++ p2 |}
                           (RoleName name) clazz method data) (names r)).
  { apply array_map_ext_in. eapply Forall_impl; [exact Hnames|].
    intros name H. rewrite !permits_RoleName.
    rewrite (_findEntries_without _ _ _ _ _ _ H). reflexivity. }
  rewrite Hd, Hp. split; reflexivity.
Qed.

(** ** The default policy, for every role *)

(** X12. With no policy given, nothing is ever denied, and a request is
    permitted exactly when the class and the method hold no line terminator
    and one of its role names holds none: [denies] returns [false] for every
    role, and [permits] returns [true] on an array of roles exactly when one
    of its names is accepted by [/^.*$/]; an empty array is not permitted. *)
Theorem default_policy_for_every_role r clazz method data :
  denies modules (new_MethodAccessController None) r clazz method data
  = Return false
  /\ permits modules (new_MethodAccessController None) r clazz method data
     = Return (existsb
                 (fun name => re_dot_star name && re_dot_star clazz
                              && re_dot_star method) (names r)).
Proof.
  assert (Hd : denies modules (new_MethodAccessController None) r
                 clazz method data = Return false).
  { rewrite denies_by_names. apply array_map_all_false.
    apply List.Forall_forall. intros name _.
    apply (default_policy_decisions modules name clazz method data). }
  split; [exact Hd|].
  rewrite permits_by_names, <- denies_by_names, Hd.
  apply any_true_pure. apply List.Forall_forall. intros name _.
  apply (default_policy_decisions modules name clazz method data).
Qed.

(** ** [permits] after [denies] *)

(** X14. [permits] never gets past [denies]: for every role, when [denies]
    throws, [permits] throws the same error, and when [denies] returns
    [true], [permits] returns [false] without throwing, whatever the entries
    that the interrogation in permit mode would have met. *)
Theorem permits_never_gets_past_denies this r clazz method data :
  (forall e, denies modules this r clazz method data = Throw e ->
             permits modules this r clazz method data = Throw e)
  /\ (denies modules this r clazz method data = Return true ->
      permits modules this r clazz method data = Return false).
Proof.
  rewrite (permits_after_denies modules this r).
  destruct (denies modules this r clazz method data) as [[|]|e'].
  - split; [discriminate | reflexivity].
  - split; discriminate.
  - split; [intros e [= ->]; reflexivity | discriminate].
Qed.

End Coverage.

(** ** The class [Account] of the unit tests *)

Section AccountCoverage.
Import AccountTest.
Context (modules : gmap string (value Account)).

Lemma account_grants role (this : Account) :
  grants modules controller (RoleName role) "Account" "close" this
  = Return (re_dot_plus role
            && (String.eqb role "MANAGER" || (balance this <? 10000)%Z)).
Proof.
  unfold grants. rewrite permits_RoleName.
  unfold _findEntries, controller. cbn.
  destruct (re_dot_plus role); cbn; [|reflexivity].
  unfold account_strategy. cbn.
  destruct (String.eqb role "MANAGER" || (balance this <? 10000)%Z);
    reflexivity.
Qed.

(** X13. The caller [close] of the unit tests checks each role on its own:
    with no roles in the context the account is closed without any check;
    with an array of role names it is closed exactly when one of the names
    is not empty, holds no line terminator, and is ["MANAGER"] or comes with
    a balance under 10000, and [E_ACCESS_DENIED] is thrown otherwise, for
    the empty array in particular; the controller never throws there. *)
Theorem close_checks_each_role (roles : option (list string))
    (this : Account) :
  close modules (option_map (map RoleName) roles) this
  = if match roles with
       | None => true
       | Some names =>
           existsb (fun role =>
                      re_dot_plus role
                      && (String.eqb role "MANAGER"
                          || (balance this <? 10000)%Z)) names
       end
    then Closed (mkAccount (id this) (balance this) (Some false))
    else E_ACCESS_DENIED.
Proof.
  destruct roles as [names|]; [|reflexivity].
  cbn [option_map close].
  assert (H : any_true
                (array_map
                   (fun r => grants modules controller r "Account" "close" this)
                   (map RoleName names))
              = Return
                  (existsb
                     (fun role =>
                        re_dot_plus role
                        && (String.eqb role "MANAGER"
                            || (balance this <? 10000)%Z)) names)).
  { rewrite array_map_map. apply any_true_pure.
    apply List.Forall_forall. intros role _. apply account_grants. }
  unfold any_true in H.
  destruct (array_map _ (map RoleName names)) as [results|e];
    cbn in H; [|discriminate].
  injection H as H. rewrite H.
  destruct (existsb _ names); reflexivity.
Qed.

End AccountCoverage.

(** ** The properties at the example policies *)

Import MoreExamples.

Lemma unmatched_request_is_neither_permitted_nor_denied_witness :
  denies no_modules empty_policy nested_roles "Foo" "bar" None = Return false
  /\ permits no_modules empty_policy nested_roles "Foo" "bar" None
     = Return false.
Proof.
  apply (unmatched_request_is_neither_permitted_nor_denied no_modules
           empty_policy nested_roles "Foo" "bar" None).
  repeat constructor.
Defined.

Lemma decisions_rest_on_an_entry_witness :
  exists name it,
    In name ["Teller"; "Dummy"]
    /\ In it (_findEntries one_denied name "Foo" "bar")
    /\ strategy it = VBoolean false.
Proof.
  apply (proj1 (decisions_rest_on_an_entry no_modules one_denied
                  (RoleArray [RoleName "Teller"; RoleName "Dummy"])
                  "Foo" "bar" None)).
  reflexivity.
Defined.


Lemma unresolved_reference_error_witness :
  denies no_modules by_reference (RoleName "Teller") "Foo" "bar" None
  = Throw (MODULE_NOT_FOUND "./flag.json").
Proof.
  apply (proj1 (unresolved_reference_error no_modules by_reference
                  "Teller" "Foo" "bar" None "./flag.json")).
  eexists. split; [exists [], []; split; reflexivity|].
  split; reflexivity.
Defined.


Lemma static_policy_decisions_witness :
  denies no_modules single_denial (RoleName "Cowboy") "Foo" "bar" None
  = Return true
  /\ permits no_modules one_of_many (RoleName "Manager") "Foo" "bar" None
     = Return true.
Proof.
  split.
  - apply (static_policy_decisions no_modules single_denial
             "Cowboy" "Foo" "bar" None).
    + repeat constructor.
    + right; right; left. reflexivity.
  - apply (static_policy_decisions no_modules one_of_many
             "Manager" "Foo" "bar" None).
    + repeat constructor.
    + split; [discriminate | repeat constructor].
Defined.

Lemma interrogation_of_a_concatenation_witness :
  _interrogate no_modules ([cowboy true; cowboy false] ++ [even_days_entry])
    "TELLER" "Account" "close" None false = Return true.
Proof.
  apply (interrogation_of_a_concatenation no_modules
           [cowboy true; cowboy false] [even_days_entry]
           "TELLER" "Account" "close" None).
  reflexivity.
Defined.

Lemma role_order_does_not_change_the_decision_witness :
  denies no_modules one_denied
    (RoleArray [RoleName "Dummy"; RoleName "Teller"]) "Foo" "bar" None
  = Return true
  /\ permits no_modules one_denied
       (RoleArray [RoleName "Dummy"; RoleName "Teller"]) "Foo" "bar" None
     = Return false.
Proof.
  split.
  - apply (proj1 (role_order_does_not_change_the_decision no_modules one_denied
                    [RoleName "Teller"; RoleName "Dummy"]
                    [RoleName "Dummy"; RoleName "Teller"]
                    "Foo" "bar" None true (perm_swap _ _ _))).
    reflexivity.
  - apply (proj2 (role_order_does_not_change_the_decision no_modules one_denied
                    [RoleName "Teller"; RoleName "Dummy"]
                    [RoleName "Dummy"; RoleName "Teller"]
                    "Foo" "bar" None false (perm_swap _ _ _))).
    reflexivity.
Defined.

Lemma entry_that_does_not_match_is_irrelevant_witness :
  permits no_modules {| _policy := [manager_anywhere] ++ teller_snafu :: [] |}
    nested_roles "Foo" "bar" None
  = permits no_modules {| _policy := [manager_anywhere] ++ [] |}
      nested_roles "Foo" "bar" None.
Proof.
  apply (entry_that_does_not_match_is_irrelevant no_modules
           [manager_anywhere] [] teller_snafu nested_roles "Foo" "bar" None).
  repeat constructor.
Defined.

Lemma permits_never_gets_past_denies_witness :
  permits no_modules with_object_strategy
    (RoleArray [RoleName "Dummy"; RoleName "Auditor"]) "Foo" "bar" None
  = Throw E_STRATEGY_NOT_A_FUNCTION
  /\ permits no_modules single_denial (RoleName "Cowboy") "Foo" "bar" None
     = Return false.
Proof.
  split.
  - apply (permits_never_gets_past_denies no_modules with_object_strategy).
    reflexivity.
  - apply (permits_never_gets_past_denies no_modules single_denial).
    reflexivity.
Defined.
